(** * stream_lavf: the libavformat stream backend of mpv

    A shallow embedding of [stream/stream_lavf.c].  The adapter is almost
    entirely control logic around an external library (libavformat's avio
    layer), so the embedding is organised as follows:

    - C strings are [string]; a [char *] that may be [NULL] is an
      [option string];
    - the avio library is an interface ([Class Avio]): its state, its handles
      and its entry points are abstract, and every theorem about the adapter
      holds for every implementation of that interface;
    - the adapter's functions run in a small state-and-failure monad over a
      [world]: the library's state, the sequence of library calls made so far
      and the messages logged so far.  A computation that yields [None] has
      dereferenced a null pointer (undefined behaviour in C);
    - [stream_t] is a record; its function-pointer members hold the name of the
      installed function or [None] for [NULL]. *)

From Stdlib Require Import ZArith String Ascii List Bool Lia.
Import ListNotations.

Local Open Scope string_scope.
Local Open Scope Z_scope.

(** ** C strings *)

Module CStr.

Definition LF : string := String "010"%char EmptyString.
Definition CR : string := String "013"%char EmptyString.
Definition CRLF : string := CR ++ LF.

(** [filename += n] *)
Fixpoint advance (n : nat) (s : string) : string :=
  match n, s with
  | O, _ => s
  | S n', String _ s' => advance n' s'
  | S _, EmptyString => EmptyString
  end.

(** [!strncmp(s, p, strlen(p))]: [p] is an initial segment of [s]. *)
Definition starts_with (s p : string) : bool := String.prefix p s.

(** [!s || !s[0]] *)
Definition null_or_empty (s : option string) : bool :=
  match s with
  | None => true
  | Some EmptyString => true
  | Some (String _ _) => false
  end.

(** [strlen(s) != 0] *)
Definition nonempty (s : string) : bool :=
  match s with EmptyString => false | String _ _ => true end.

End CStr.

(** ** Byte strings of [bstr/bstr.h]

    [read_icy] and [open_f] use a handful of the byte-string functions that
    the player defines in bstr/bstr.h and bstr/bstr.c.  A [bstr] is a pointer
    and a length; here it is the [string] of the bytes it spans. *)

Module Bstr.

Definition bstr := string.

(** Modelled from the spec: [bstr0] of bstr/bstr.h (outside stream_lavf.c),
    the view of a C string as a byte string; a [NULL] pointer gives the
    empty byte string. *)
Definition bstr0 (s : option string) : bstr :=
  match s with Some x => x | None => EmptyString end.

Definition len (s : bstr) : Z := Z.of_nat (String.length s).

(** Modelled from the spec: [bstr_equals0] of bstr/bstr.h (outside
    stream_lavf.c), equality of a byte string and a C string; the spec's "the
    latest-packet value equals the reserved sentinel". *)
Definition bstr_equals0 (s : bstr) (c : string) : bool := String.eqb s c.

(** Modelled from the spec: [bstr_eatstart0] of bstr/bstr.h (outside
    stream_lavf.c), "matched by exact literal prefix ... preserving the remainder
    of the URL unchanged": when [s] starts with [p] the result is the
    remainder. *)
Definition bstr_eatstart0 (s : bstr) (p : string) : option bstr :=
  if String.prefix p s then Some (CStr.advance (String.length p) s) else None.

(** Modelled from the spec: [bstrchr] of bstr/bstr.c (outside
    stream_lavf.c), the index of the first occurrence of a character ("the next
    single-quote character"), [-1] when there is none. *)
Fixpoint bstrchr (s : bstr) (c : ascii) : Z :=
  match s with
  | EmptyString => -1
  | String d s' =>
      if Ascii.eqb d c then 0
      else let r := bstrchr s' c in if r <? 0 then -1 else r + 1
  end.

(** Modelled from the spec: [bstr_find] of bstr/bstr.c (outside
    stream_lavf.c), the index of the first occurrence of a substring ("scan the
    packet for a fixed marker substring"), [-1] when there is none. *)
Fixpoint bstr_find (haystack needle : bstr) : Z :=
  match haystack with
  | EmptyString => -1
  | String _ rest =>
      if String.prefix needle haystack then 0
      else let r := bstr_find rest needle in if r <? 0 then -1 else r + 1
  end.

(** Modelled from the spec: [bstr_splice] of bstr/bstr.c (outside
    stream_lavf.c), the bytes from index [start] up to index [stop]; a negative
    [stop] counts from one past the end, so that [-1] means "up to the
    end", and both bounds are clamped to the string. *)
Definition bstr_splice (s : bstr) (start stop : Z) : bstr :=
  let start := if start <? 0 then start + len s else start in
  let stop := if stop <? 0 then stop + len s + 1 else stop in
  let stop := Z.min stop (len s) in
  let start := Z.max start 0 in
  let stop := Z.max stop start in
  String.substring (Z.to_nat start) (Z.to_nat (stop - start)) s.

(** Modelled from the spec: [bstr_cut] of bstr/bstr.h (outside
    stream_lavf.c), the byte string without its first [n] bytes (clamped to the
    string; a negative [n] counts from the end). *)
Definition bstr_cut (s : bstr) (n : Z) : bstr :=
  let n := if n <? 0 then Z.max (n + len s) 0 else n in
  let n := Z.min n (len s) in
  CStr.advance (Z.to_nat n) s.

(** Modelled from the spec: [bstr_getline] of bstr/bstr.c (outside
    stream_lavf.c), the first line of a "CRLF/LF-delimited" block, including its
    line feed, and the rest of the block after it. *)
Definition bstr_getline (s : bstr) : bstr * bstr :=
  let pos := bstrchr s "010"%char in
  let pos := if pos <? 0 then len s else pos in
  (bstr_splice s 0 (pos + 1), bstr_cut s (pos + 1)).

Definition ends_with (s suffix : bstr) : bool :=
  let n := String.length s in
  let m := String.length suffix in
  (m <=? n)%nat && String.eqb (String.substring (n - m) m s) suffix.

(** Modelled from the spec: [bstr_strip_linebreaks] of bstr/bstr.c (outside
    stream_lavf.c), a line without its terminating CRLF or LF. *)
Definition bstr_strip_linebreaks (s : bstr) : bstr :=
  if ends_with s CStr.CRLF then bstr_splice s 0 (len s - 2)
  else if ends_with s CStr.LF then bstr_splice s 0 (len s - 1)
  else s.

(** Modelled from the spec: [bstr_split_tok] of bstr/bstr.c (outside
    stream_lavf.c), the split of a "key: value" line at the first occurrence of
    the separator; the flag tells whether the separator occurred. *)
Definition bstr_split_tok (s : bstr) (tok : string) : bool * bstr * bstr :=
  let pos := bstr_find s tok in
  let pos := if pos <? 0 then len s else pos in
  (negb (pos =? len s), bstr_splice s 0 pos, bstr_cut s (pos + len tok)).

End Bstr.

(** ** Tags of [common/tags.h] *)

Module Tags.

(** A [struct mp_tags]: the keys with their values, in insertion order. *)
Definition mp_tags := list (string * string).

(** Modelled from the spec: [mp_tags_set_bstr] of common/tags.c (outside
    stream_lavf.c), the "ordered key->value insert" of the tag set: a key
    already present gets the new value in place, a new key is appended. *)
Fixpoint mp_tags_set_bstr (tags : mp_tags) (key value : string) : mp_tags :=
  match tags with
  | [] => [(key, value)]
  | (k, v) :: rest =>
      if String.eqb k key then (k, value) :: rest
      else (k, v) :: mp_tags_set_bstr rest key value
  end.

End Tags.

(** ** What the adapter takes from outside its own file *)

(** The constants of [stream.h] that the adapter uses, and two helpers of
    other files of the player that [open_f] calls.  The header gives the
    numbers; the adapter only names them, so they are parameters here.  The
    four control codes label the cases of one [switch], which C accepts only
    when they are pairwise different. *)
Class StreamH := {
  STREAM_READ : Z;
  STREAM_WRITE : Z;
  STREAM_UNSUPPORTED : Z;
  STREAM_ERROR : Z;
  STREAM_OK : Z;
  STREAM_CTRL_GET_SIZE : Z;
  STREAM_CTRL_AVSEEK : Z;
  STREAM_CTRL_GET_METADATA : Z;
  STREAM_CTRL_RECONNECT : Z;
  case_labels_distinct :
    NoDup [STREAM_CTRL_GET_SIZE; STREAM_CTRL_AVSEEK;
           STREAM_CTRL_GET_METADATA; STREAM_CTRL_RECONNECT];
  (** [mp_get_user_path(temp, stream->global, file)] of options/path.c *)
  mp_get_user_path : string -> option string;
  (** [cookies_lavf(temp, stream->log, file)] of stream/cookies.c *)
  cookies_lavf : option string -> option string
}.

(** libavformat's avio layer and the parts of libavutil that go with it: the
    external I/O backend.  [avio_state] is everything the library owns
    (connections, buffers, the option fields of its contexts); an
    [AVIOContext] is a non-null [AVIOContext *].  The members of the context
    that the adapter reads ([error], [write_flag], [seekable], [av_class]) are
    read from the library's state.  [av_opt_get] gives the return code and
    the string stored through its out parameter. *)
Class Avio := {
  avio_state : Type;
  AVIOContext : Type;
  AVDictionary : Type;
  AVIO_FLAG_READ : Z;
  AVIO_FLAG_WRITE : Z;
  SEEK_SET : Z;
  AVERROR_PROTOCOL_NOT_FOUND : Z;
  (** a [NULL] dictionary *)
  av_dict_null : AVDictionary;
  (** [av_dict_set(&dict, key, value, 0)] *)
  av_dict_set : AVDictionary -> string -> string -> AVDictionary;
  (** the entries that [av_dict_get(dict, "", t, AV_DICT_IGNORE_SUFFIX)]
      enumerates *)
  av_dict_entries : AVDictionary -> list (string * string);
  (** [mp_set_avdict(&dict, kv)] of common/av_common.c *)
  mp_set_avdict : AVDictionary -> list (string * string) -> AVDictionary;
  (** [avio_open2(&avio, filename, flags, &cb, &dict)]: the return code, the
      context stored through [&avio] and the dictionary left in [dict].  The
      callback [cb] is [interrupt_cb] on the stream itself at every call; what
      the library makes of it is part of this function. *)
  avio_open2 : string -> Z -> AVDictionary -> avio_state ->
               Z * option AVIOContext * AVDictionary * avio_state;
  avio_close : AVIOContext -> avio_state -> avio_state;
  (** the return code and the bytes stored in the buffer *)
  avio_read : AVIOContext -> Z -> avio_state -> Z * list Byte.byte * avio_state;
  avio_write : AVIOContext -> list Byte.byte -> Z -> avio_state -> avio_state;
  avio_flush : AVIOContext -> avio_state -> avio_state;
  avio_seek : AVIOContext -> Z -> Z -> avio_state -> Z * avio_state;
  avio_seek_time : AVIOContext -> Z -> Z -> Z -> avio_state -> Z * avio_state;
  avio_size : AVIOContext -> avio_state -> Z * avio_state;
  ctx_error : AVIOContext -> avio_state -> Z;
  ctx_write_flag : AVIOContext -> avio_state -> Z;
  ctx_seekable : AVIOContext -> avio_state -> Z;
  (** [avio->av_class != NULL] *)
  ctx_av_class : AVIOContext -> avio_state -> bool;
  (** [av_opt_get(avio, name, AV_OPT_SEARCH_CHILDREN, &out)] *)
  av_opt_get : AVIOContext -> string -> avio_state -> Z * option string;
  (** [av_opt_set(avio, name, value, AV_OPT_SEARCH_CHILDREN)] *)
  av_opt_set : AVIOContext -> string -> string -> avio_state -> avio_state
}.

(** ** The data of the adapter *)

(** The options of [struct MPOpts] that [open_f] reads. *)
Record MPOpts := {
  network_useragent : option string;
  network_cookies_enabled : bool;
  network_cookies_file : option string;
  network_tls_verify : bool;
  network_tls_ca_file : option string;
  network_referrer : option string;
  network_http_header_fields : option (list string);
  (** [opts->stream_lavf_opts->avopts] *)
  avopts : list (string * string)
}.

(** The static functions of the file that [open_f] installs in a stream. *)
Inductive fnptr := Fn_seek | Fn_fill_buffer | Fn_write_buffer | Fn_control | Fn_close_f.

(** The argument of [control], a [void *]: what it points to. *)
Inductive ctrl_arg :=
| ArgNone
| ArgSize (size : Z)
| ArgAvseek (stream_index timestamp flags : Z)
| ArgTags (tags : option Tags.mp_tags).

Section Adapter.

Context {H : StreamH} {B : Avio}.

(** The members of [stream_t] that the adapter reads or writes. *)
Record stream := {
  url : option string;
  mode : Z;
  priv : option AVIOContext;
  s_seek : option fnptr;
  seekable : bool;
  s_fill_buffer : option fnptr;
  s_write_buffer : option fnptr;
  s_control : option fnptr;
  s_close : option fnptr;
  streaming : bool;
  demuxer : option string;
  lavf_type : option string;
  mime_type : option string;
  opts : MPOpts
}.

Definition set_url (v : option string) (s : stream) : stream :=
  {| url := v; mode := mode s; priv := priv s; s_seek := s_seek s;
     seekable := seekable s; s_fill_buffer := s_fill_buffer s;
     s_write_buffer := s_write_buffer s; s_control := s_control s;
     s_close := s_close s; streaming := streaming s; demuxer := demuxer s;
     lavf_type := lavf_type s; mime_type := mime_type s; opts := opts s |}.

Definition set_priv (v : option AVIOContext) (s : stream) : stream :=
  {| url := url s; mode := mode s; priv := v; s_seek := s_seek s;
     seekable := seekable s; s_fill_buffer := s_fill_buffer s;
     s_write_buffer := s_write_buffer s; s_control := s_control s;
     s_close := s_close s; streaming := streaming s; demuxer := demuxer s;
     lavf_type := lavf_type s; mime_type := mime_type s; opts := opts s |}.

Definition set_seek (v : option fnptr) (s : stream) : stream :=
  {| url := url s; mode := mode s; priv := priv s; s_seek := v;
     seekable := seekable s; s_fill_buffer := s_fill_buffer s;
     s_write_buffer := s_write_buffer s; s_control := s_control s;
     s_close := s_close s; streaming := streaming s; demuxer := demuxer s;
     lavf_type := lavf_type s; mime_type := mime_type s; opts := opts s |}.

Definition set_seekable (v : bool) (s : stream) : stream :=
  {| url := url s; mode := mode s; priv := priv s; s_seek := s_seek s;
     seekable := v; s_fill_buffer := s_fill_buffer s;
     s_write_buffer := s_write_buffer s; s_control := s_control s;
     s_close := s_close s; streaming := streaming s; demuxer := demuxer s;
     lavf_type := lavf_type s; mime_type := mime_type s; opts := opts s |}.

(** [stream->demuxer = d; stream->lavf_type = t;] *)
Definition set_demuxer (d t : string) (s : stream) : stream :=
  {| url := url s; mode := mode s; priv := priv s; s_seek := s_seek s;
     seekable := seekable s; s_fill_buffer := s_fill_buffer s;
     s_write_buffer := s_write_buffer s; s_control := s_control s;
     s_close := s_close s; streaming := streaming s; demuxer := Some d;
     lavf_type := Some t; mime_type := mime_type s; opts := opts s |}.

Definition set_mime_type (v : option string) (s : stream) : stream :=
  {| url := url s; mode := mode s; priv := priv s; s_seek := s_seek s;
     seekable := seekable s; s_fill_buffer := s_fill_buffer s;
     s_write_buffer := s_write_buffer s; s_control := s_control s;
     s_close := s_close s; streaming := streaming s; demuxer := demuxer s;
     lavf_type := lavf_type s; mime_type := v; opts := opts s |}.

(** The five assignments that end a successful [open_f]. *)
Definition install_functions (s : stream) : stream :=
  {| url := url s; mode := mode s; priv := priv s; s_seek := s_seek s;
     seekable := seekable s; s_fill_buffer := Some Fn_fill_buffer;
     s_write_buffer := Some Fn_write_buffer; s_control := Some Fn_control;
     s_close := Some Fn_close_f; streaming := true; demuxer := demuxer s;
     lavf_type := lavf_type s; mime_type := mime_type s; opts := opts s |}.

(** *** The world and the monad *)

(** A call into the library that may change its state. *)
Inductive avio_call :=
| Call_avio_open2 (filename : string) (flags : Z) (dict : AVDictionary)
| Call_avio_close (avio : AVIOContext)
| Call_avio_read (avio : AVIOContext) (max_len : Z)
| Call_avio_write (avio : AVIOContext) (buffer : list Byte.byte) (len : Z)
| Call_avio_flush (avio : AVIOContext)
| Call_avio_seek (avio : AVIOContext) (pos whence : Z)
| Call_avio_seek_time (avio : AVIOContext) (stream_index timestamp flags : Z)
| Call_avio_size (avio : AVIOContext)
| Call_av_opt_set (avio : AVIOContext) (name value : string).

Inductive msg_level := MSGL_ERR | MSGL_V.

Record world := {
  lib : avio_state;
  calls : list avio_call;
  msgs : list (msg_level * string)
}.

Definition M (A : Type) : Type := world -> option (A * world).

Definition ret {A} (a : A) : M A := fun w => Some (a, w).

Definition bind {A C} (m : M A) (k : A -> M C) : M C :=
  fun w => match m w with
           | Some (a, w') => k a w'
           | None => None
           end.

(** A null pointer is dereferenced. *)
Definition null_deref {A} : M A := fun _ => None.

(** A read of the library's state. *)
Definition look {A} (f : avio_state -> A) : M A := fun w => Some (f (lib w), w).

(** A call of the library: it is recorded and the library's state moves. *)
Definition call {A} (c : avio_call) (f : avio_state -> A * avio_state) : M A :=
  fun w => let (a, l) := f (lib w) in
           Some (a, {| lib := l; calls := calls w ++ [c]; msgs := msgs w |}).

Definition mp_msg (lev : msg_level) (text : string) : M unit :=
  fun w => Some (tt, {| lib := lib w; calls := calls w;
                        msgs := msgs w ++ [(lev, text)] |}).

Definition MP_ERR := mp_msg MSGL_ERR.
Definition MP_VERBOSE := mp_msg MSGL_V.


Local Notation "x <- c ;; k" := (bind c (fun x => k))
  (at level 61, c at next level, right associativity).
Local Notation "c ;;; k" := (bind c (fun _ => k))
  (at level 61, right associativity).

(** ** The I/O functions (lines 55-97) *)

Definition fill_buffer (s : stream) (max_len : Z) : M (Z * list Byte.byte) :=
  match priv s with
  | None => ret (-1, [])
  | Some avio =>
      rd <- call (Call_avio_read avio max_len) (avio_read avio max_len) ;;
      let r := fst rd in
      ret (if r <=? 0 then -1 else r, snd rd)
  end.

Definition write_buffer (s : stream) (buffer : list Byte.byte) (len : Z) : M Z :=
  match priv s with
  | None => ret (-1)
  | Some avio =>
      call (Call_avio_write avio buffer len)
           (fun l => (tt, avio_write avio buffer len l)) ;;;
      call (Call_avio_flush avio) (fun l => (tt, avio_flush avio l)) ;;;
      err <- look (ctx_error avio) ;;
      if negb (err =? 0) then ret (-1) else ret len
  end.

Definition seek (s : stream) (newpos : Z) : M Z :=
  match priv s with
  | None => ret (-1)
  | Some avio =>
      r <- call (Call_avio_seek avio newpos SEEK_SET) (avio_seek avio newpos SEEK_SET) ;;
      if r <? 0 then ret 0 else ret 1
  end.

Definition close_f (s : stream) : M unit :=
  match priv s with
  | Some avio => call (Call_avio_close avio) (fun l => (tt, avio_close avio l))
  | None => ret tt
  end.

(** ** [open_f] (lines 144-265) *)

Definition prefix : list string := ["lavf://"; "ffmpeg://"].

(** The loop of lines 164-166: one pass over the table, in its order. *)
Definition skip_prefixes (filename : string) : string :=
  fold_left
    (fun fn p => if CStr.starts_with fn p then CStr.advance (String.length p) fn else fn)
    prefix filename.

(** Lines 182-187: "mms://" and "mmshttp://" become "mmsh://". *)
Definition mms_to_mmsh (filename : string) : string :=
  let b_filename := Bstr.bstr0 (Some filename) in
  match Bstr.bstr_eatstart0 b_filename "mms://" with
  | Some rest => "mmsh://" ++ rest
  | None =>
      match Bstr.bstr_eatstart0 b_filename "mmshttp://" with
      | Some rest => "mmsh://" ++ rest
      | None => filename
      end
  end.

(** Lines 189-217: the options handed to [avio_open2]. *)
Definition lavf_options (o : MPOpts) : AVDictionary :=
  let dict := av_dict_null in
  let dict :=
    match network_useragent o with
    | Some ua => av_dict_set dict "user-agent" ua
    | None => dict
    end in
  let dict :=
    if network_cookies_enabled o then
      let file := network_cookies_file o in
      let file :=
        match file with
        | Some (String c r) => mp_get_user_path (String c r)
        | _ => file
        end in
      match cookies_lavf file with
      | Some (String c r) => av_dict_set dict "cookies" (String c r)
      | _ => dict
      end
    else dict in
  let dict := av_dict_set dict "tls_verify" (if network_tls_verify o then "1" else "0") in
  let dict :=
    match network_tls_ca_file o with
    | Some f => av_dict_set dict "ca_file" f
    | None => dict
    end in
  let cust_headers := EmptyString in
  let cust_headers :=
    match network_referrer o with
    | Some r => cust_headers ++ "Referer: " ++ r ++ CStr.CRLF
    | None => cust_headers
    end in
  let cust_headers :=
    match network_http_header_fields o with
    | Some fields => fold_left (fun acc f => acc ++ f ++ CStr.CRLF) fields cust_headers
    | None => cust_headers
    end in
  let dict :=
    if CStr.nonempty cust_headers then av_dict_set dict "headers" cust_headers
    else dict in
  let dict := av_dict_set dict "icy" "1" in
  mp_set_avdict dict (avopts o).

(** Lines 232-236: one message for each option the library left over. *)
Fixpoint report_unset (entries : list (string * string)) : M unit :=
  match entries with
  | [] => ret tt
  | (k, v) :: rest =>
      MP_VERBOSE ("Could not set stream option " ++ k ++ "=" ++ v ++ CStr.LF) ;;;
      report_unset rest
  end.

Definition open_f (stream0 : stream) : M (Z * stream) :=
  let o := opts stream0 in
  let stream1 := set_seekable false (set_seek None stream0) in
  let flags := if mode stream1 =? STREAM_WRITE then AVIO_FLAG_WRITE else AVIO_FLAG_READ in
  match url stream1 with
  | None =>
      MP_ERR ("No URL" ++ CStr.LF) ;;;
      ret (STREAM_ERROR, stream1)
  | Some filename =>
      let filename := skip_prefixes filename in
      if CStr.starts_with filename "rtsp:" then
        ret (STREAM_OK, set_demuxer "lavf" "rtsp" stream1)
      else
        MP_VERBOSE ("Opening " ++ filename ++ CStr.LF) ;;;
        let filename := mms_to_mmsh filename in
        let dict := lavf_options o in
        opened <- call (Call_avio_open2 filename flags dict)
                       (fun l => let '(err, avio, dict', l') := avio_open2 filename flags dict l in
                                 ((err, avio, dict'), l')) ;;
        let '(err, avio, dict) := opened in
        if err <? 0 then
          (if err =? AVERROR_PROTOCOL_NOT_FOUND
           then MP_ERR ("Protocol not found. Make sure ffmpeg/Libav is compiled with networking support." ++ CStr.LF)
           else ret tt) ;;;
          ret (STREAM_ERROR, stream1)
        else
          report_unset (av_dict_entries dict) ;;;
          match avio with
          | None => null_deref
          | Some avio =>
              cls <- look (ctx_av_class avio) ;;
              stream2 <-
                (if cls then
                   mt <- look (av_opt_get avio "mime_type") ;;
                   ret (if 0 <=? fst mt then set_mime_type (snd mt) stream1
                        else stream1)
                 else ret stream1) ;;
              let stream3 :=
                if CStr.starts_with filename "rtmp" then set_demuxer "lavf" "flv" stream2
                else stream2 in
              let stream4 := set_priv (Some avio) stream3 in
              sk <- look (ctx_seekable avio) ;;
              let stream5 := set_seekable (negb (sk =? 0)) stream4 in
              let stream6 :=
                set_seek (if seekable stream5 then Some Fn_seek else None) stream5 in
              ret (STREAM_OK, install_functions stream6)
          end
  end.

(** ** [read_icy] (lines 267-321) *)

(** The loop of lines 299-304.  Each turn takes one line off the header, so
    the length of the header bounds the number of turns
    ([icy_header_lines_enough] below). *)
Fixpoint icy_header_lines (turns : nat) (header : Bstr.bstr) (res : Tags.mp_tags)
  : Tags.mp_tags :=
  match turns with
  | O => res
  | S turns' =>
      if Bstr.len header =? 0 then res
      else
        let (line0, rest) := Bstr.bstr_getline header in
        let line := Bstr.bstr_strip_linebreaks line0 in
        let '(found, name, val) := Bstr.bstr_split_tok line ": " in
        icy_header_lines turns' rest
          (if found then Tags.mp_tags_set_bstr res name val else res)
  end.

(** Lines 306-313. *)
Definition icy_title (packet : Bstr.bstr) (res : Tags.mp_tags) : Tags.mp_tags :=
  let head := Bstr.bstr0 (Some "StreamTitle='") in
  let i := Bstr.bstr_find packet head in
  if 0 <=? i then
    let packet := Bstr.bstr_cut packet (i + Bstr.len head) in
    let stop := Bstr.bstrchr packet "'"%char in
    let packet := Bstr.bstr_splice packet 0 stop in
    Tags.mp_tags_set_bstr res (Bstr.bstr0 (Some "icy-title")) packet
  else res.

Definition read_icy (s : stream) : M (option Tags.mp_tags) :=
  match priv s with
  | None => null_deref
  | Some avio =>
      cls <- look (ctx_av_class avio) ;;
      if negb cls then ret None
      else
        got_h <- look (av_opt_get avio "icy_metadata_headers") ;;
        let icy_header := if fst got_h <? 0 then None else snd got_h in
        got_p <- look (av_opt_get avio "icy_metadata_packet") ;;
        let icy_packet := if fst got_p <? 0 then None else snd got_p in
        if CStr.null_or_empty icy_header && CStr.null_or_empty icy_packet then ret None
        else
          let packet := Bstr.bstr0 icy_packet in
          if Bstr.bstr_equals0 packet "-" then ret None
          else
            let res : Tags.mp_tags := [] in
            let header := Bstr.bstr0 icy_header in
            let res := icy_header_lines (String.length header) header res in
            let res := icy_title packet res in
            call (Call_av_opt_set avio "icy_metadata_packet" "-")
                 (fun l => (tt, av_opt_set avio "icy_metadata_packet" "-" l)) ;;;
            ret (Some res)
  end.

(** ** [control] (lines 99-136) *)

Definition control (s : stream) (cmd : Z) (arg : ctrl_arg) : M (Z * stream * ctrl_arg) :=
  let avio := priv s in
  if (match avio with None => true | Some _ => false end)
     && negb (cmd =? STREAM_CTRL_RECONNECT)
  then ret (-1, s, arg)
  else if cmd =? STREAM_CTRL_GET_SIZE then
    match avio with
    | None => null_deref
    | Some a =>
        size <- call (Call_avio_size a) (avio_size a) ;;
        if 0 <=? size then ret (1, s, ArgSize size)
        else ret (STREAM_UNSUPPORTED, s, arg)
    end
  else if cmd =? STREAM_CTRL_AVSEEK then
    match avio, arg with
    | Some a, ArgAvseek stream_index timestamp flags =>
        r <- call (Call_avio_seek_time a stream_index timestamp flags)
                  (avio_seek_time a stream_index timestamp flags) ;;
        if 0 <=? r then ret (1, s, arg)
        else ret (STREAM_UNSUPPORTED, s, arg)
    | _, _ => null_deref
    end
  else if cmd =? STREAM_CTRL_GET_METADATA then
    tags <- read_icy s ;;
    match tags with
    | None => ret (STREAM_UNSUPPORTED, s, ArgTags None)
    | Some t => ret (1, s, ArgTags (Some t))
    end
  else if cmd =? STREAM_CTRL_RECONNECT then
    write_flag <- match avio with
                  | Some a => look (ctx_write_flag a)
                  | None => ret 0
                  end ;;
    if negb (write_flag =? 0) then ret (STREAM_UNSUPPORTED, s, arg)
    else
      close_f s ;;;
      let s := set_priv None s in
      res <- open_f s ;;
      ret (fst res, snd res, arg)
  else ret (STREAM_UNSUPPORTED, s, arg).

(** ** [stream_info_ffmpeg] (lines 323-333) *)

Record stream_info_t := {
  info_name : string;
  info_open : stream -> M (Z * stream);
  protocols : list string;
  can_write : bool
}.

Definition stream_info_ffmpeg : stream_info_t := {|
  info_name := "ffmpeg";
  info_open := open_f;
  protocols :=
    ["lavf"; "ffmpeg"; "rtmp"; "rtsp"; "http"; "https"; "mms"; "mmst"; "mmsh";
     "mmshttp"; "udp"; "ftp"; "rtp"; "httpproxy"; "hls"; "rtmpe"; "rtmps";
     "rtmpt"; "rtmpte"; "rtmpts"; "srtp"; "tcp"; "udp"; "tls"; "unix"; "sftp";
     "md5"];
  can_write := true
|}.

(** ** The vocabulary of the statements below *)

(** The three ways in which [open_f] returns: the failure exit [out], the
    hand-over of an "rtsp:" URL to the demuxer, and the exit after a
    successful [avio_open2]. *)
Inductive open_f_exit (s : stream) (w : world) : Z -> stream -> world -> Prop :=
| Exit_out s' w' :
    priv s' = priv s -> seekable s' = false -> s_seek s' = None ->
    open_f_exit s w STREAM_ERROR s' w'
| Exit_rtsp s' :
    priv s' = priv s -> seekable s' = false -> s_seek s' = None ->
    demuxer s' = Some "lavf" -> lavf_type s' = Some "rtsp" ->
    open_f_exit s w STREAM_OK s' w
| Exit_opened a s' w' :
    priv s' = Some a ->
    seekable s' = negb (ctx_seekable a (lib w') =? 0) ->
    s_seek s' = (if seekable s' then Some Fn_seek else None) ->
    open_f_exit s w STREAM_OK s' w'.

(** The world after [close_f] has closed the context [a]. *)
Definition after_close (a : AVIOContext) (w : world) : world :=
  {| lib := avio_close a (lib w);
     calls := calls w ++ [Call_avio_close a];
     msgs := msgs w |}.

(** What [control] makes of the result of the [open_f] it ends with. *)
Definition reopened (arg : ctrl_arg) (o : option (Z * stream * world))
  : option (Z * stream * ctrl_arg * world) :=
  match o with
  | Some ((r, s'), w') => Some ((r, s', arg), w')
  | None => None
  end.

(** The flags that [open_f] derives from the stream's mode (line 157). *)
Definition open_flags (s : stream) : Z :=
  if mode s =? STREAM_WRITE then AVIO_FLAG_WRITE else AVIO_FLAG_READ.

(** The entries of a table up to and including [p]. *)
Fixpoint up_to (p : string) (table : list string) : list string :=
  match table with
  | [] => []
  | q :: rest => if String.eqb q p then [q] else q :: up_to p rest
  end.

(** [u] begins with a wrapper prefix that the loop of lines 164-166 has
    already gone past when it has consumed [p]. *)
Definition wrapped_again (p u : string) : bool :=
  existsb (fun q => CStr.starts_with u q) (up_to p prefix).

(** The result of an open, for a stream whose stored URL is [v]. *)
Definition with_url (v : option string) (o : option (Z * stream * world))
  : option (Z * stream * world) :=
  match o with
  | Some ((r, s'), w') => Some ((r, set_url v s'), w')
  | None => None
  end.

(** The stream that [open_f] leaves after [avio_open2] has stored the
    context [avio] and left the library in state [l] (lines 238-258). *)
Definition opened_stream (s : stream) (avio : AVIOContext) (l : avio_state)
  (filename : string) : stream :=
  let stream1 := set_seekable false (set_seek None s) in
  let stream2 :=
    if ctx_av_class avio l then
      let mt := av_opt_get avio "mime_type" l in
      if 0 <=? fst mt then set_mime_type (snd mt) stream1 else stream1
    else stream1 in
  let stream3 :=
    if CStr.starts_with filename "rtmp" then set_demuxer "lavf" "flv" stream2
    else stream2 in
  let stream5 :=
    set_seekable (negb (ctx_seekable avio l =? 0)) (set_priv (Some avio) stream3) in
  install_functions
    (set_seek (if seekable stream5 then Some Fn_seek else None) stream5).

(** The messages of [open_f]. *)
Definition opening_msg (filename : string) : msg_level * string :=
  (MSGL_V, "Opening " ++ filename ++ CStr.LF).

Definition protocol_not_found_msg : msg_level * string :=
  (MSGL_ERR,
   "Protocol not found. Make sure ffmpeg/Libav is compiled with networking support."
     ++ CStr.LF).

Definition unset_msg (e : string * string) : msg_level * string :=
  (MSGL_V, "Could not set stream option " ++ fst e ++ "=" ++ snd e ++ CStr.LF).

(** The world after the one library call of [open_f]. *)
Definition after_open (filename : string) (flags : Z) (dict : AVDictionary)
  (l : avio_state) (logged : list (msg_level * string)) (w : world) : world :=
  {| lib := l;
     calls := calls w ++ [Call_avio_open2 filename flags dict];
     msgs := msgs w ++ logged |}.


(** A string field of the context as [read_icy] takes it: null when
    [av_opt_get] reports an error (lines 274-282). *)
Definition icy_field (avio : AVIOContext) (name : string) (l : avio_state)
  : option string :=
  let got := av_opt_get avio name l in
  if fst got <? 0 then None else snd got.

(** The world after [read_icy] has marked the packet as delivered. *)
Definition after_mark (avio : AVIOContext) (w : world) : world :=
  {| lib := av_opt_set avio "icy_metadata_packet" "-" (lib w);
     calls := calls w ++ [Call_av_opt_set avio "icy_metadata_packet" "-"];
     msgs := msgs w |}.


End Adapter.


(** * A small library, and the adapter run on it

    The theorems below hold for every library behind [Avio].  Here is one
    that is small enough to run: it knows the "http://" protocol only, has one
    context, and keeps the two ICY fields, the seekable flag and the write
    flag of that context.  The return codes are those of [stream.h]
    ([STREAM_UNSUPPORTED] is -1, [STREAM_ERROR] is 0, [STREAM_OK] is 1); four
    different numbers stand for the four control codes. *)

Module Sample.

Definition labels_distinct : NoDup [11; 12; 13; 14].
Proof. repeat constructor; simpl; intuition discriminate. Defined.

#[local] Instance stream_h : StreamH := {|
  STREAM_READ := 0;
  STREAM_WRITE := 1;
  STREAM_UNSUPPORTED := -1;
  STREAM_ERROR := 0;
  STREAM_OK := 1;
  STREAM_CTRL_GET_SIZE := 11;
  STREAM_CTRL_AVSEEK := 12;
  STREAM_CTRL_GET_METADATA := 13;
  STREAM_CTRL_RECONNECT := 14;
  case_labels_distinct := labels_distinct;
  mp_get_user_path := fun file => Some file;
  cookies_lavf := fun _ => None
|}.

Record lib_state := {
  l_seekable : Z;
  l_write_flag : Z;
  l_headers : option string;
  l_packet : option string
}.

Definition dict_set (d : list (string * string)) (k v : string) :=
  (filter (fun e => negb (String.eqb (fst e) k)) d ++ [(k, v)])%list.

Definition open2 (filename : string) (flags : Z) (d : list (string * string))
  (l : lib_state) : Z * option nat * list (string * string) * lib_state :=
  if CStr.starts_with filename "http://" then
    (0, Some 1%nat, [],
     {| l_seekable := l_seekable l;
        l_write_flag := if flags =? 2 then 1 else 0;
        l_headers := l_headers l;
        l_packet := l_packet l |})
  else (-1330794744, None, d, l).

Definition opt_get (name : string) (l : lib_state) : Z * option string :=
  if String.eqb name "icy_metadata_headers" then
    match l_headers l with Some v => (0, Some v) | None => (0, Some EmptyString) end
  else if String.eqb name "icy_metadata_packet" then
    match l_packet l with Some v => (0, Some v) | None => (0, Some EmptyString) end
  else (-1414549496, None).

Definition opt_set (name value : string) (l : lib_state) : lib_state :=
  if String.eqb name "icy_metadata_packet" then
    {| l_seekable := l_seekable l; l_write_flag := l_write_flag l;
       l_headers := l_headers l; l_packet := Some value |}
  else l.

#[local] Instance avio : Avio := {|
  avio_state := lib_state;
  AVIOContext := nat;
  AVDictionary := list (string * string);
  AVIO_FLAG_READ := 1;
  AVIO_FLAG_WRITE := 2;
  SEEK_SET := 0;
  AVERROR_PROTOCOL_NOT_FOUND := -1330794744;
  av_dict_null := [];
  av_dict_set := dict_set;
  av_dict_entries := fun d => d;
  mp_set_avdict := fun d kv => fold_left (fun d e => dict_set d (fst e) (snd e)) kv d;
  avio_open2 := open2;
  avio_close := fun _ l => l;
  avio_read := fun _ _ l => (0, [], l);
  avio_write := fun _ _ _ l => l;
  avio_flush := fun _ l => l;
  avio_seek := fun _ pos _ l => (if l_seekable l =? 0 then -1 else pos, l);
  avio_seek_time := fun _ _ _ _ l => (-1, l);
  avio_size := fun _ l => (-1, l);
  ctx_error := fun _ _ => 0;
  ctx_write_flag := fun _ l => l_write_flag l;
  ctx_seekable := fun _ l => l_seekable l;
  ctx_av_class := fun _ _ => true;
  av_opt_get := fun _ name l => opt_get name l;
  av_opt_set := fun _ name value l => opt_set name value l
|}.

Definition no_opts : MPOpts := {|
  network_useragent := None;
  network_cookies_enabled := false;
  network_cookies_file := None;
  network_tls_verify := false;
  network_tls_ca_file := None;
  network_referrer := None;
  network_http_header_fields := None;
  avopts := []
|}.

(** A stream as [open_f] first sees it: a URL, a mode, nothing else. *)
Definition fresh (u : option string) (m : Z) : stream := {|
  url := u; mode := m; priv := None; s_seek := None; seekable := false;
  s_fill_buffer := None; s_write_buffer := None; s_control := None;
  s_close := None; streaming := false; demuxer := None; lavf_type := None;
  mime_type := None; opts := no_opts
|}.

(** A world in which nothing has happened; the context of the library is not
    seekable and holds a radio station's ICY fields. *)
Definition idle : world := {|
  lib := {| l_seekable := 0; l_write_flag := 0;
            l_headers := Some ("StationName: Test" ++ CStr.CRLF);
            l_packet := Some "StreamTitle='Now Playing';" |};
  calls := [];
  msgs := []
|}.

(** The stream and the world after [open_f] on a URL, or the stream untouched
    if [open_f] does not return. *)
Definition opened (u : string) (m : Z) : Z * stream * world :=
  match open_f (fresh (Some u) m) idle with
  | Some x => x
  | None => (STREAM_ERROR, fresh (Some u) m, idle)
  end.

Definition radio : stream := snd (fst (opened "http://radio.example/live" 0)).
Definition on_air : world := snd (opened "http://radio.example/live" 0).

(** The status, the handle and the library calls of an [open_f]. *)
Definition outcome (o : option (Z * stream * world))
  : option (Z * option nat * list avio_call) :=
  match o with
  | Some ((r, s'), w') => Some (r, priv s', calls w')
  | None => None
  end.

(** The radio stream, were its URL one that the library cannot open. *)
Definition lost : stream := set_url (Some "ftp://radio.example/live") radio.

(** The stream after a reconnect of [lost]. *)
Definition lost_after : stream :=
  match control lost STREAM_CTRL_RECONNECT ArgNone on_air with
  | Some ((_, s', _), _) => s'
  | None => lost
  end.

Definition lost_world : world :=
  match control lost STREAM_CTRL_RECONNECT ArgNone on_air with
  | Some (_, w') => w'
  | None => on_air
  end.

(** An open of an old MMS name, which the small library cannot open. *)
Definition mms_result : Z * stream * world := opened "lavf://mms://radio.example/live" 0.

End Sample.

(** * Properties *)

Section Properties.

Context {H : StreamH} {B : Avio}.

(** ** C strings *)

Lemma prefix_app (p u : string) : String.prefix p (p ++ u) = true.
Proof.
  induction p as [|c p IH]; simpl.
  - now destruct u.
  - destruct (Ascii.ascii_dec c c) as [_|N]; [exact IH | now elim N].
Qed.

Lemma advance_app (p u : string) : CStr.advance (String.length p) (p ++ u) = u.
Proof. induction p as [|c p IH]; simpl; [now destruct u | exact IH]. Qed.

Lemma starts_with_app (p u : string) : CStr.starts_with (p ++ u) p = true.
Proof. apply prefix_app. Qed.

Ltac unfold_monad :=
  unfold bind, ret, look, call, null_deref, MP_ERR, MP_VERBOSE, mp_msg in *.

(** ** The setters *)

Lemma set_priv_same (s : stream) : set_priv (priv s) s = s.
Proof. now destruct s. Qed.

(** ** The case labels of [control] *)

Lemma reconnect_is_not_get_size :
  (STREAM_CTRL_RECONNECT =? STREAM_CTRL_GET_SIZE) = false.
Proof.
  apply Z.eqb_neq; intro E.
  pose proof case_labels_distinct as D.
  inversion D as [|x l N _]; subst; apply N; rewrite <- E; simpl; auto.
Qed.

Lemma reconnect_is_not_avseek :
  (STREAM_CTRL_RECONNECT =? STREAM_CTRL_AVSEEK) = false.
Proof.
  apply Z.eqb_neq; intro E.
  pose proof case_labels_distinct as D.
  inversion D as [|x l _ D1]; subst.
  inversion D1 as [|y l' N _]; subst; apply N; rewrite <- E; simpl; auto.
Qed.

Lemma reconnect_is_not_get_metadata :
  (STREAM_CTRL_RECONNECT =? STREAM_CTRL_GET_METADATA) = false.
Proof.
  apply Z.eqb_neq; intro E.
  pose proof case_labels_distinct as D.
  inversion D as [|x l _ D1]; subst.
  inversion D1 as [|y l' _ D2]; subst.
  inversion D2 as [|z l'' N _]; subst; apply N; rewrite <- E; simpl; auto.
Qed.

(** What the [switch] does with the reconnect code: the body of its last
    case. *)
Lemma control_reconnect (s : stream) (arg : ctrl_arg) :
  control s STREAM_CTRL_RECONNECT arg =
  bind (match priv s with
        | Some a => look (ctx_write_flag a)
        | None => ret 0
        end)
       (fun write_flag =>
          if negb (write_flag =? 0) then ret (STREAM_UNSUPPORTED, s, arg)
          else bind (close_f s)
                 (fun _ => bind (open_f (set_priv None s))
                             (fun res => ret (fst res, snd res, arg)))).
Proof.
  unfold control.
  rewrite Z.eqb_refl, reconnect_is_not_get_size, reconnect_is_not_avseek,
    reconnect_is_not_get_metadata.
  simpl negb. rewrite andb_false_r. reflexivity.
Qed.

(** A code that is none of the four labels falls out of the [switch]. *)
Lemma control_default (s : stream) (a : AVIOContext) (cmd : Z) (arg : ctrl_arg) (w : world) :
  priv s = Some a ->
  ~ In cmd [STREAM_CTRL_GET_SIZE; STREAM_CTRL_AVSEEK;
            STREAM_CTRL_GET_METADATA; STREAM_CTRL_RECONNECT] ->
  control s cmd arg w = Some ((STREAM_UNSUPPORTED, s, arg), w).
Proof.
  intros P N. unfold control. rewrite P. simpl in N.
  assert (E1 : (cmd =? STREAM_CTRL_GET_SIZE) = false) by (apply Z.eqb_neq; intuition).
  assert (E2 : (cmd =? STREAM_CTRL_AVSEEK) = false) by (apply Z.eqb_neq; intuition).
  assert (E3 : (cmd =? STREAM_CTRL_GET_METADATA) = false) by (apply Z.eqb_neq; intuition).
  assert (E4 : (cmd =? STREAM_CTRL_RECONNECT) = false) by (apply Z.eqb_neq; intuition).
  rewrite E1, E2, E3, E4. reflexivity.
Qed.

(** Without a context the guard of line 102 answers every code but the
    reconnect code, with the literal [-1]. *)
Lemma control_no_context (s : stream) (cmd : Z) (arg : ctrl_arg) (w : world) :
  priv s = None ->
  cmd <> STREAM_CTRL_RECONNECT ->
  control s cmd arg w = Some ((-1, s, arg), w).
Proof.
  intros P N. unfold control. rewrite P.
  apply Z.eqb_neq in N. rewrite N. reflexivity.
Qed.

(** C1.  A control code that is none of the four recognized ones (get size,
    timestamp seek, get metadata, reconnect) is answered with the
    "unsupported" signal and not with the error signal, whether a session is
    open or not; the stream, the argument and the library are left as they
    were.  With a session the answer is the [STREAM_UNSUPPORTED] that ends
    [control]; without one it is the [-1] of the guard at its start, which is
    the same signal since [stream.h] defines [STREAM_UNSUPPORTED] as [-1]
    (and [STREAM_ERROR] as another number). *)
Theorem control_unrecognized_is_unsupported
  (s : stream) (cmd : Z) (arg : ctrl_arg) (w : world) :
  STREAM_UNSUPPORTED = -1 ->
  STREAM_ERROR <> STREAM_UNSUPPORTED ->
  ~ In cmd [STREAM_CTRL_GET_SIZE; STREAM_CTRL_AVSEEK;
            STREAM_CTRL_GET_METADATA; STREAM_CTRL_RECONNECT] ->
  exists r,
    control s cmd arg w = Some ((r, s, arg), w) /\
    r = STREAM_UNSUPPORTED /\ r <> STREAM_ERROR.
Proof.
  intros U E N. exists STREAM_UNSUPPORTED.
  split; [|split; [reflexivity | congruence]].
  destruct (priv s) as [a|] eqn:P.
  - now apply control_default with a.
  - rewrite U. apply control_no_context; [exact P|].
    intro C; apply N; rewrite C; simpl; auto.
Qed.

(** C9.  Without a session handle ([stream->priv] is null) the read, write
    and absolute-seek functions return [-1]; they return (no null pointer is
    dereferenced), they make no call into the library and leave the world as
    it was. *)
Theorem io_without_handle_returns_minus_one
  (s : stream) (max_len : Z) (buffer : list Byte.byte) (len newpos : Z) (w : world) :
  priv s = None ->
  fill_buffer s max_len w = Some ((-1, []), w) /\
  write_buffer s buffer len w = Some (-1, w) /\
  seek s newpos w = Some (-1, w).
Proof.
  intros P. unfold fill_buffer, write_buffer, seek. rewrite P. now repeat split.
Qed.

(** ** [open_f] *)

Lemma report_unset_logs (entries : list (string * string)) (w : world) :
  exists m,
    report_unset entries w =
    Some (tt, {| lib := lib w; calls := calls w; msgs := msgs w ++ m |}).
Proof.
  revert w. induction entries as [|[k v] rest IH]; intros w; simpl.
  - exists []. rewrite app_nil_r. now destruct w.
  - unfold_monad.
    match goal with
    | |- context [report_unset rest ?w0] => destruct (IH w0) as [m E]; rewrite E
    end.
    simpl. eexists. rewrite <- app_assoc. reflexivity.
Qed.

Lemma open_f_exits (s : stream) (w : world) (r : Z) (s' : stream) (w' : world) :
  open_f s w = Some ((r, s'), w') -> open_f_exit s w r s' w'.
Proof.
  unfold open_f. simpl.
  destruct (url s) as [filename|].
  2:{ unfold_monad. intros E; inversion E; subst. now constructor. }
  destruct (CStr.starts_with (skip_prefixes filename) "rtsp:").
  { unfold_monad. intros E; inversion E; subst. now constructor. }
  unfold_monad. simpl.
  destruct (avio_open2 _ _ _ _) as [[[err avio] dict] l'].
  destruct (err <? 0).
  { destruct (err =? AVERROR_PROTOCOL_NOT_FOUND);
      intros E; inversion E; subst; now constructor. }
  match goal with
  | |- context [report_unset ?es ?w0] =>
      destruct (report_unset_logs es w0) as [m Em]; rewrite Em; clear Em
  end.
  destruct avio as [a|]; [|discriminate].
  simpl.
  destruct (ctx_av_class a l');
    [destruct (0 <=? fst (av_opt_get a "mime_type" l'))|];
    destruct (CStr.starts_with _ "rtmp");
    intros E; inversion E; subst; simpl;
    apply Exit_opened with a; simpl; try reflexivity;
    destruct (ctx_seekable a l' =? 0); reflexivity.
Qed.

(** C7.  After a successful open for which the library reports the context
    as not seekable ([avio->seekable] is 0), the stream's [seekable] flag is
    false and its [seek] member is null: no seek function is installed. *)
Theorem open_not_seekable_installs_no_seek
  (s : stream) (w : world) (r : Z) (s' : stream) (w' : world) (a : AVIOContext) :
  open_f s w = Some ((r, s'), w') ->
  r = STREAM_OK ->
  priv s' = Some a ->
  ctx_seekable a (lib w') = 0 ->
  seekable s' = false /\ s_seek s' = None.
Proof.
  intros E _ P K. apply open_f_exits in E.
  destruct E as [s' w' _ F N | s' _ F N _ _ | a' s' w' P' F N]; auto.
  rewrite P in P'. injection P' as <-.
  rewrite K in F. simpl in F. rewrite F in N. auto.
Qed.

(** ** Reconnect *)

Lemma control_reconnect_with_context
  (s : stream) (a : AVIOContext) (arg : ctrl_arg) (w : world) :
  priv s = Some a ->
  control s STREAM_CTRL_RECONNECT arg w =
  if negb (ctx_write_flag a (lib w) =? 0)
  then Some ((STREAM_UNSUPPORTED, s, arg), w)
  else reopened arg (open_f (set_priv None s) (after_close a w)).
Proof.
  intros P. rewrite control_reconnect. unfold close_f. rewrite P.
  unfold_monad. simpl.
  destruct (ctx_write_flag a (lib w) =? 0); simpl; [|reflexivity].
  fold (after_close a w).
  destruct (open_f (set_priv None s) (after_close a w)) as [[[r s'] w']|]; reflexivity.
Qed.

(** C5.  A reconnect request on a write-mode session ([avio->write_flag] is
    set) returns "unsupported" and closes or reopens nothing: stream and world
    stay as they are.  On a read-mode session it closes the session and
    returns what [open_f] returns on the same stream, with the same URL and
    mode and with no handle, in the world that the close has left. *)
Theorem reconnect_refused_for_write_reopens_for_read
  (s : stream) (a : AVIOContext) (arg : ctrl_arg) (w : world) :
  priv s = Some a ->
  (ctx_write_flag a (lib w) <> 0 ->
   control s STREAM_CTRL_RECONNECT arg w = Some ((STREAM_UNSUPPORTED, s, arg), w)) /\
  (ctx_write_flag a (lib w) = 0 ->
   control s STREAM_CTRL_RECONNECT arg w =
     reopened arg (open_f (set_priv None s) (after_close a w)) /\
   url (set_priv None s) = url s /\
   mode (set_priv None s) = mode s /\
   priv (set_priv None s) = None).
Proof.
  intros P. rewrite (control_reconnect_with_context s a arg w P). split.
  - intros F. apply Z.eqb_neq in F. now rewrite F.
  - intros F. rewrite F. simpl. repeat split.
Qed.

(** C6.  When a reconnect request on a read-mode session ends in a failed
    reopen (the dispatcher returns something other than [STREAM_OK]), the
    stream holds no handle afterwards: [stream->priv] is null. *)
Theorem reconnect_failure_leaves_no_handle
  (s : stream) (a : AVIOContext) (arg arg' : ctrl_arg) (w w' : world)
  (r : Z) (s' : stream) :
  priv s = Some a ->
  ctx_write_flag a (lib w) = 0 ->
  control s STREAM_CTRL_RECONNECT arg w = Some ((r, s', arg'), w') ->
  r <> STREAM_OK ->
  priv s' = None.
Proof.
  intros P F E N. rewrite (control_reconnect_with_context s a arg w P), F in E.
  simpl in E. unfold reopened in E.
  destruct (open_f (set_priv None s) (after_close a w)) as [[[r0 s0] w0]|] eqn:O;
    [|discriminate].
  inversion E; subst. apply open_f_exits in O.
  destruct O as [s' w' Q _ _ | s' _ _ _ _ _ | a' s' w' _ _ _]; try congruence.
  exact Q.
Qed.

(** C10.  A reconnect request made while there is no session handle goes on
    to reopen whatever the stream's mode is, write mode included: the
    write-mode refusal looks at the flag of an existing context only.  The
    dispatcher returns what [open_f] returns on the stream as it stands;
    nothing is closed first. *)
Theorem reconnect_without_handle_reopens
  (s : stream) (arg : ctrl_arg) (w : world) :
  priv s = None ->
  control s STREAM_CTRL_RECONNECT arg w = reopened arg (open_f s w).
Proof.
  intros P. rewrite control_reconnect. unfold close_f. rewrite P.
  unfold_monad. simpl.
  rewrite <- P, set_priv_same.
  destruct (open_f s w) as [[[r s'] w']|]; reflexivity.
Qed.

(** ** The URL of [open_f] *)

(** C2.  An open attempt with a missing URL ([stream->url] is null) fails at
    once: [open_f] logs "No URL" and returns [STREAM_ERROR] without a call
    into the library.  An empty URL is not rejected by [open_f]: it is the
    file name of a call of [avio_open2], and [open_f] returns after that call
    whenever the library reports an error or stores a context. *)
Theorem open_missing_url_fails_empty_url_reaches_library (s : stream) (w : world) :
  (url s = None ->
   open_f s w =
   Some ((STREAM_ERROR, set_seekable false (set_seek None s)),
         {| lib := lib w; calls := calls w;
            msgs := msgs w ++ [(MSGL_ERR, "No URL" ++ CStr.LF)] |})) /\
  (url s = Some EmptyString ->
   forall err avio dict' l',
     avio_open2 EmptyString (open_flags s) (lavf_options (opts s)) (lib w)
       = (err, avio, dict', l') ->
     err < 0 \/ avio <> None ->
     exists r s' w',
       open_f s w = Some ((r, s'), w') /\
       lib w' = l' /\
       calls w' = (calls w ++ [Call_avio_open2 EmptyString (open_flags s)
                                                (lavf_options (opts s))])%list).
Proof.
  split.
  - intros U. unfold open_f. simpl. rewrite U. reflexivity.
  - intros U err avio dict' l' O C. unfold open_f, open_flags in *. simpl.
    rewrite U. simpl. unfold mms_to_mmsh. simpl. unfold_monad. simpl.
    change (skip_prefixes EmptyString) with EmptyString. rewrite O.
    destruct (err <? 0) eqn:Neg.
    + destruct (err =? AVERROR_PROTOCOL_NOT_FOUND); do 3 eexists; simpl;
        (split; [reflexivity | split; reflexivity]).
    + apply Z.ltb_ge in Neg. destruct C as [C|C]; [lia|].
      destruct avio as [a|]; [|congruence].
      match goal with
      | |- context [report_unset ?es ?w0] =>
          destruct (report_unset_logs es w0) as [m Em]; rewrite Em; clear Em
      end.
      simpl.
      destruct (ctx_av_class a l'); do 3 eexists;
        (split; [reflexivity | split; reflexivity]).
Qed.

Lemma skip_prefixes_wrapped (p u : string) :
  In p prefix -> wrapped_again p u = false ->
  skip_prefixes (p ++ u) = skip_prefixes u.
Proof.
  unfold wrapped_again, skip_prefixes, prefix.
  intros [<-|[<-|[]]] W; cbn [up_to String.eqb Ascii.eqb Bool.eqb existsb] in W;
    cbn [fold_left].
  - rewrite orb_false_r in W. rewrite W.
    rewrite starts_with_app, advance_app. reflexivity.
  - apply orb_false_elim in W as [W1 W2]. rewrite orb_false_r in W2.
    rewrite W1, W2.
    replace (CStr.starts_with ("ffmpeg://" ++ u) "lavf://") with false by reflexivity.
    rewrite starts_with_app, advance_app. reflexivity.
Qed.

(** [open_f] uses the URL through [skip_prefixes] only. *)
Lemma open_f_same_remainder (f1 f2 : string) (s : stream) (w : world) :
  skip_prefixes f1 = skip_prefixes f2 ->
  open_f (set_url (Some f1) s) w =
  with_url (Some f1) (open_f (set_url (Some f2) s) w).
Proof.
  intros E. unfold open_f. simpl. rewrite E.
  destruct (CStr.starts_with (skip_prefixes f2) "rtsp:"); [reflexivity|].
  unfold_monad. simpl.
  destruct (avio_open2 _ _ _ _) as [[[err avio] dict] l'].
  destruct (err <? 0).
  { destruct (err =? AVERROR_PROTOCOL_NOT_FOUND); reflexivity. }
  match goal with
  | |- context [report_unset ?es ?w0] =>
      destruct (report_unset_logs es w0) as [m Em]; rewrite Em; clear Em
  end.
  destruct avio as [a|]; [|reflexivity].
  cbn [lib fst snd].
  destruct (ctx_av_class a l');
    repeat match goal with
           | |- context [if ?c then _ else _] => destruct c
           end; reflexivity.
Qed.

(** C3.  For a wrapper prefix [p] of the table and a URL [u] that does not
    itself begin with a prefix of the table up to and including [p],
    opening [p ++ u] is opening [u]: the same status, the same world
    afterwards and the same stream, but for the URL that the stream stores. *)
Theorem wrapper_prefix_is_transparent (p u : string) (s : stream) (w : world) :
  In p prefix ->
  wrapped_again p u = false ->
  open_f (set_url (Some (p ++ u)) s) w =
  with_url (Some (p ++ u)) (open_f (set_url (Some u) s) w).
Proof.
  intros I W. apply open_f_same_remainder. now apply skip_prefixes_wrapped.
Qed.

(** ** [read_icy] *)

Lemma advance_length (n : nat) (s : string) :
  String.length (CStr.advance n s) = (String.length s - n)%nat.
Proof.
  revert s. induction n as [|n IH]; intros s; simpl.
  - lia.
  - destruct s as [|c s]; simpl; [reflexivity | apply IH].
Qed.

Lemma bstrchr_lower (s : Bstr.bstr) (c : ascii) : -1 <= Bstr.bstrchr s c.
Proof.
  induction s as [|d s IH]; simpl; [lia|].
  destruct (Ascii.eqb d c); [lia|].
  destruct (Bstr.bstrchr s c <? 0) eqn:E; [lia|]. apply Z.ltb_ge in E. lia.
Qed.

(** A turn of the header loop leaves a shorter header. *)
Lemma getline_rest_shorter (header : Bstr.bstr) :
  (Bstr.len header =? 0) = false ->
  (String.length (snd (Bstr.bstr_getline header)) < String.length header)%nat.
Proof.
  intros N. apply Z.eqb_neq in N. unfold Bstr.bstr_getline, Bstr.bstr_cut. cbn [snd].
  unfold Bstr.len in *.
  pose proof (bstrchr_lower header "010"%char) as L.
  set (pos := Bstr.bstrchr header "010"%char) in *.
  rewrite advance_length.
  destruct (pos <? 0) eqn:E1;
    [|apply Z.ltb_ge in E1];
    (destruct (_ + 1 <? 0) eqn:E2; [apply Z.ltb_lt in E2|apply Z.ltb_ge in E2]);
    lia.
Qed.

(** The number of turns that [read_icy] allows is enough: more turns give
    the same tags. *)
Lemma icy_header_lines_enough (n m : nat) (header : Bstr.bstr) (res : Tags.mp_tags) :
  (String.length header <= n)%nat -> (String.length header <= m)%nat ->
  icy_header_lines n header res = icy_header_lines m header res.
Proof.
  revert m header res. induction n as [|n IH]; intros m header res Hn Hm.
  - assert (Z0 : (Bstr.len header =? 0) = true)
      by (apply Z.eqb_eq; unfold Bstr.len; lia).
    destruct m; simpl; [reflexivity | now rewrite Z0].
  - destruct m as [|m].
    + assert (Z0 : (Bstr.len header =? 0) = true)
        by (apply Z.eqb_eq; unfold Bstr.len; lia).
      simpl. now rewrite Z0.
    + cbn [icy_header_lines]. destruct (Bstr.len header =? 0) eqn:Z0; [reflexivity|].
      pose proof (getline_rest_shorter header Z0) as Sh.
      destruct (Bstr.bstr_getline header) as [line0 rest]. cbn [snd] in Sh.
      destruct (Bstr.bstr_split_tok _ _) as [[found name] val].
      apply IH; lia.
Qed.

(** [read_icy] on a stream with a context, as a function of the world. *)
Lemma read_icy_with_context (s : stream) (a : AVIOContext) (w : world) :
  priv s = Some a ->
  read_icy s w =
  let got_h := av_opt_get a "icy_metadata_headers" (lib w) in
  let got_p := av_opt_get a "icy_metadata_packet" (lib w) in
  let icy_header := if fst got_h <? 0 then None else snd got_h in
  let icy_packet := if fst got_p <? 0 then None else snd got_p in
  if negb (ctx_av_class a (lib w)) then Some (None, w)
  else if CStr.null_or_empty icy_header && CStr.null_or_empty icy_packet
  then Some (None, w)
  else if Bstr.bstr_equals0 (Bstr.bstr0 icy_packet) "-" then Some (None, w)
  else
    Some (Some (icy_title (Bstr.bstr0 icy_packet)
                  (icy_header_lines (String.length (Bstr.bstr0 icy_header))
                     (Bstr.bstr0 icy_header) [])),
          {| lib := av_opt_set a "icy_metadata_packet" "-" (lib w);
             calls := calls w ++ [Call_av_opt_set a "icy_metadata_packet" "-"];
             msgs := msgs w |}).
Proof.
  intros P. unfold read_icy. rewrite P. unfold_monad. cbv zeta.
  destruct (negb (ctx_av_class a (lib w))); [reflexivity|].
  destruct (CStr.null_or_empty _ && CStr.null_or_empty _); [reflexivity|].
  destruct (Bstr.bstr_equals0 _ "-"); reflexivity.
Qed.

(** C4.  Two metadata extractions in a row, with no new packet from the
    library in between (when the first one has written the mark "-" to the
    packet field, the field still reads "-"): the first one returns, and the
    second one returns "no metadata" (a null tag set), whatever the header
    block holds. *)
Theorem read_icy_twice_gives_nothing_new (s : stream) (a : AVIOContext) (w : world) :
  priv s = Some a ->
  (let l1 := av_opt_set a "icy_metadata_packet" "-" (lib w) in
   0 <= fst (av_opt_get a "icy_metadata_packet" l1) /\
   snd (av_opt_get a "icy_metadata_packet" l1) = Some "-") ->
  exists r1 w1,
    read_icy s w = Some (r1, w1) /\
    exists w2, read_icy s w1 = Some (None, w2).
Proof.
  intros P [K1 K2]. apply Z.ltb_ge in K1.
  rewrite (read_icy_with_context s a w P). cbv zeta.
  destruct (negb (ctx_av_class a (lib w))) eqn:C.
  { do 2 eexists. split; [reflexivity|]. exists w.
    rewrite (read_icy_with_context s a w P). cbv zeta. now rewrite C. }
  destruct (CStr.null_or_empty _ && CStr.null_or_empty _) eqn:Emp.
  { do 2 eexists. split; [reflexivity|]. exists w.
    rewrite (read_icy_with_context s a w P). cbv zeta. now rewrite C, Emp. }
  destruct (Bstr.bstr_equals0 _ "-") eqn:Dash.
  { do 2 eexists. split; [reflexivity|]. exists w.
    rewrite (read_icy_with_context s a w P). cbv zeta. now rewrite C, Emp, Dash. }
  do 2 eexists. split; [reflexivity|].
  match goal with |- exists w2, read_icy s ?w1 = _ => exists w1 end.
  rewrite (read_icy_with_context s a _ P). cbv zeta. cbn [lib].
  rewrite K1, K2. cbn [CStr.null_or_empty Bstr.bstr0]. rewrite andb_false_r.
  destruct (negb (ctx_av_class a (av_opt_set a "icy_metadata_packet" "-" (lib w))));
    reflexivity.
Qed.

(** C8.  With the header text "StationName: Test\r\n" and the packet text
    "StreamTitle='Now Playing';" in the library's fields, a metadata
    extraction returns a tag set that holds StationName=Test and
    icy-title=Now Playing (and nothing else), and marks the packet as
    delivered. *)
Theorem read_icy_station_and_title
  (s : stream) (a : AVIOContext) (w : world) (r_h r_p : Z) :
  priv s = Some a ->
  ctx_av_class a (lib w) = true ->
  av_opt_get a "icy_metadata_headers" (lib w)
    = (r_h, Some ("StationName: Test" ++ CStr.CRLF)) ->
  0 <= r_h ->
  av_opt_get a "icy_metadata_packet" (lib w)
    = (r_p, Some "StreamTitle='Now Playing';") ->
  0 <= r_p ->
  exists tags,
    read_icy s w =
    Some (Some tags,
          {| lib := av_opt_set a "icy_metadata_packet" "-" (lib w);
             calls := calls w ++ [Call_av_opt_set a "icy_metadata_packet" "-"];
             msgs := msgs w |}) /\
    tags = [("StationName", "Test"); ("icy-title", "Now Playing")] /\
    In ("StationName", "Test") tags /\
    In ("icy-title", "Now Playing") tags.
Proof.
  intros P C Gh Nh Gp Np.
  eexists. split; [|split; [reflexivity | split; simpl; auto]].
  rewrite (read_icy_with_context s a w P). cbv zeta.
  rewrite C, Gh, Gp. cbn [fst snd negb].
  apply Z.ltb_ge in Nh, Np. rewrite Nh, Np.
  reflexivity.
Qed.

(** ** The I/O functions on an open session *)

(** X1.  [fill_buffer] returns, and what it returns is -1 or a positive
    count, never 0: the end of the stream and a read error of the library
    give the same -1.  On an open session the count is positive exactly when
    the library's is, and the bytes are the library's. *)
Theorem fill_buffer_returns_minus_one_or_positive
  (s : stream) (max_len : Z) (w : world) :
  exists r data w',
    fill_buffer s max_len w = Some ((r, data), w') /\
    (r = -1 \/ 0 < r) /\
    forall a, priv s = Some a ->
      (0 < r <-> 0 < fst (fst (avio_read a max_len (lib w)))) /\
      (0 < r -> r = fst (fst (avio_read a max_len (lib w)))) /\
      data = snd (fst (avio_read a max_len (lib w))) /\
      calls w' = (calls w ++ [Call_avio_read a max_len])%list.
Proof.
  unfold fill_buffer. destruct (priv s) as [a|].
  - unfold_monad. destruct (avio_read a max_len (lib w)) as [[r0 d0] l0] eqn:R.
    cbn [fst snd].
    destruct (r0 <=? 0) eqn:L; do 3 eexists;
      (split; [reflexivity|]);
      [apply Z.leb_le in L | apply Z.leb_gt in L];
      (split; [lia|]);
      intros a' E; injection E as <-; rewrite R; cbn [fst snd calls];
      repeat split; try reflexivity; lia.
  - do 3 eexists. split; [reflexivity|]. split; [lia|]. intros a E. discriminate.
Qed.

(** X2.  On an open session [write_buffer] hands the buffer to the library
    and flushes before it returns, in this order and with nothing else; it
    returns the length it was given when the context's error flag is clear
    after the flush, and -1 otherwise. *)
Theorem write_buffer_writes_then_flushes
  (s : stream) (a : AVIOContext) (buffer : list Byte.byte) (len : Z) (w : world) :
  priv s = Some a ->
  exists r w',
    write_buffer s buffer len w = Some (r, w') /\
    lib w' = avio_flush a (avio_write a buffer len (lib w)) /\
    calls w' = (calls w ++ [Call_avio_write a buffer len; Call_avio_flush a])%list /\
    msgs w' = msgs w /\
    r = (if ctx_error a (lib w') =? 0 then len else -1).
Proof.
  intros P. unfold write_buffer. rewrite P. unfold_monad. cbn [lib calls msgs].
  destruct (ctx_error a _ =? 0) eqn:E; do 2 eexists;
    (split; [reflexivity|]); cbn [lib calls msgs]; rewrite E, <- app_assoc;
    repeat split.
Qed.

(** X3.  On an open session [seek] asks the library for an absolute seek
    ([SEEK_SET]) and returns 1 when the library's answer is not negative and
    0 when it is: the -1 of the missing session is never returned for a
    failed seek. *)
Theorem seek_on_session_returns_zero_or_one
  (s : stream) (a : AVIOContext) (newpos : Z) (w : world) :
  priv s = Some a ->
  exists r w',
    seek s newpos w = Some (r, w') /\
    (r = 0 \/ r = 1) /\
    (r = 1 <-> 0 <= fst (avio_seek a newpos SEEK_SET (lib w))) /\
    lib w' = snd (avio_seek a newpos SEEK_SET (lib w)) /\
    calls w' = (calls w ++ [Call_avio_seek a newpos SEEK_SET])%list.
Proof.
  intros P. unfold seek. rewrite P. unfold_monad.
  destruct (avio_seek a newpos SEEK_SET (lib w)) as [r0 l0]. cbn [fst snd].
  destruct (r0 <? 0) eqn:L; do 2 eexists;
    (split; [reflexivity|]);
    [apply Z.ltb_lt in L | apply Z.ltb_ge in L];
    cbn [lib calls]; repeat split; try lia; auto.
Qed.

(** ** More on [control] *)

Lemma get_metadata_is_not_get_size :
  (STREAM_CTRL_GET_METADATA =? STREAM_CTRL_GET_SIZE) = false.
Proof.
  apply Z.eqb_neq; intro E.
  pose proof case_labels_distinct as D.
  inversion D as [|x l N _]; subst; apply N; rewrite <- E; simpl; auto.
Qed.

Lemma get_metadata_is_not_avseek :
  (STREAM_CTRL_GET_METADATA =? STREAM_CTRL_AVSEEK) = false.
Proof.
  apply Z.eqb_neq; intro E.
  pose proof case_labels_distinct as D.
  inversion D as [|x l _ D1]; subst.
  inversion D1 as [|y l' N _]; subst; apply N; rewrite <- E; simpl; auto.
Qed.

(** The library calls of an [open_f] that returns: none when the URL is
    missing or is handed to the rtsp demuxer, one [avio_open2] otherwise. *)
Lemma open_f_trace (s : stream) (w : world) (r : Z) (s' : stream) (w' : world) :
  open_f s w = Some ((r, s'), w') ->
  match url s with
  | None => calls w' = calls w /\ lib w' = lib w
  | Some f =>
      if CStr.starts_with (skip_prefixes f) "rtsp:"
      then calls w' = calls w /\ lib w' = lib w
      else
        calls w' = (calls w ++ [Call_avio_open2 (mms_to_mmsh (skip_prefixes f))
                                  (open_flags s) (lavf_options (opts s))])%list /\
        lib w' = snd (avio_open2 (mms_to_mmsh (skip_prefixes f))
                        (open_flags s) (lavf_options (opts s)) (lib w))
  end.
Proof.
  unfold open_f, open_flags. simpl.
  destruct (url s) as [filename|].
  2:{ unfold_monad. intros E; inversion E; subst. now split. }
  destruct (CStr.starts_with (skip_prefixes filename) "rtsp:").
  { unfold_monad. intros E; inversion E; subst. now split. }
  unfold_monad. simpl.
  destruct (avio_open2 (mms_to_mmsh (skip_prefixes filename))
              (if mode s =? STREAM_WRITE then AVIO_FLAG_WRITE else AVIO_FLAG_READ)
              (lavf_options (opts s)) (lib w)) as [[[err avio] dict] l'] eqn:O.
  destruct (err <? 0).
  { destruct (err =? AVERROR_PROTOCOL_NOT_FOUND);
      intros E; inversion E; subst; clear E; split; reflexivity. }
  match goal with
  | |- context [report_unset ?es ?w0] =>
      destruct (report_unset_logs es w0) as [m Em]; rewrite Em; clear Em
  end.
  destruct avio as [a|]; [|discriminate].
  cbn [lib fst snd].
  destruct (ctx_av_class a l'); intros E; inversion E; subst; clear E;
    split; reflexivity.
Qed.

(** X4.  A request other than reconnect never changes the stream and never
    logs, and it returns: the guard at the head of [control] keeps every
    case, [read_icy] included, from a null context.  The return value is -1,
    1 or [STREAM_UNSUPPORTED].  (A time-seek request must come with a
    [struct stream_avseek] argument.) *)
Theorem control_request_keeps_stream
  (s : stream) (cmd : Z) (arg : ctrl_arg) (w : world) :
  cmd <> STREAM_CTRL_RECONNECT ->
  (cmd = STREAM_CTRL_AVSEEK -> exists i t f, arg = ArgAvseek i t f) ->
  exists r arg' w',
    control s cmd arg w = Some ((r, s, arg'), w') /\
    (r = -1 \/ r = 1 \/ r = STREAM_UNSUPPORTED) /\
    msgs w' = msgs w.
Proof.
  intros N Sh. destruct (priv s) as [a|] eqn:P.
  2:{ rewrite (control_no_context s cmd arg w P N). do 3 eexists. eauto. }
  unfold control. rewrite P. cbn [andb].
  apply Z.eqb_neq in N.
  destruct (cmd =? STREAM_CTRL_GET_SIZE).
  { unfold_monad. destruct (avio_size a (lib w)) as [size l0].
    destruct (0 <=? size); do 3 eexists; eauto. }
  destruct (cmd =? STREAM_CTRL_AVSEEK) eqn:Av.
  { apply Z.eqb_eq in Av. destruct (Sh Av) as (i & t & f & ->).
    unfold_monad. destruct (avio_seek_time a i t f (lib w)) as [r0 l0].
    destruct (0 <=? r0); do 3 eexists; eauto. }
  destruct (cmd =? STREAM_CTRL_GET_METADATA).
  { unfold bind. rewrite (read_icy_with_context s a w P). cbv zeta.
    repeat match goal with
           | |- context [if ?c then _ else _] => destruct c
           end; unfold ret; do 3 eexists; eauto. }
  rewrite N. unfold ret. do 3 eexists. eauto.
Qed.

(** [read_icy] right after a [read_icy], as in C4, with the world of the
    second call spelled out. *)
Lemma read_icy_again (s : stream) (a : AVIOContext) (w : world)
  (r1 : option Tags.mp_tags) (w1 : world) :
  priv s = Some a ->
  (let l1 := av_opt_set a "icy_metadata_packet" "-" (lib w) in
   0 <= fst (av_opt_get a "icy_metadata_packet" l1) /\
   snd (av_opt_get a "icy_metadata_packet" l1) = Some "-") ->
  read_icy s w = Some (r1, w1) ->
  read_icy s w1 = Some (None, w1).
Proof.
  intros P [K1 K2]. apply Z.ltb_ge in K1.
  rewrite (read_icy_with_context s a w P). cbv zeta.
  destruct (negb (ctx_av_class a (lib w))) eqn:C.
  { intros E; inversion E; subst.
    rewrite (read_icy_with_context s a _ P). cbv zeta. now rewrite C. }
  destruct (CStr.null_or_empty _ && CStr.null_or_empty _) eqn:Emp.
  { intros E; inversion E; subst.
    rewrite (read_icy_with_context s a _ P). cbv zeta. now rewrite C, Emp. }
  destruct (Bstr.bstr_equals0 _ "-") eqn:Dash.
  { intros E; inversion E; subst.
    rewrite (read_icy_with_context s a _ P). cbv zeta. now rewrite C, Emp, Dash. }
  intros E; inversion E; subst.
  rewrite (read_icy_with_context s a _ P). cbv zeta. cbn [lib].
  rewrite K1, K2. cbn [CStr.null_or_empty Bstr.bstr0]. rewrite andb_false_r.
  destruct (negb (ctx_av_class a (av_opt_set a "icy_metadata_packet" "-" (lib w))));
    reflexivity.
Qed.

(** X5.  Two metadata requests in a row: the first returns, and the second
    (the library still holding the mark that the first may have written) is
    answered [STREAM_UNSUPPORTED] with a null tag set stored through the
    argument, and changes nothing in the world. *)
Theorem get_metadata_twice_is_unsupported
  (s : stream) (a : AVIOContext) (arg : ctrl_arg) (w : world) :
  priv s = Some a ->
  (let l1 := av_opt_set a "icy_metadata_packet" "-" (lib w) in
   0 <= fst (av_opt_get a "icy_metadata_packet" l1) /\
   snd (av_opt_get a "icy_metadata_packet" l1) = Some "-") ->
  exists r1 arg1 w1,
    control s STREAM_CTRL_GET_METADATA arg w = Some ((r1, s, arg1), w1) /\
    control s STREAM_CTRL_GET_METADATA arg1 w1
      = Some ((STREAM_UNSUPPORTED, s, ArgTags None), w1).
Proof.
  intros P K.
  assert (Step : forall arg0 w0,
             control s STREAM_CTRL_GET_METADATA arg0 w0 =
             match read_icy s w0 with
             | Some (None, w1) => Some ((STREAM_UNSUPPORTED, s, ArgTags None), w1)
             | Some (Some t, w1) => Some ((1, s, ArgTags (Some t)), w1)
             | None => None
             end).
  { intros arg0 w0. unfold control. rewrite P. cbn [andb].
    rewrite get_metadata_is_not_get_size, get_metadata_is_not_avseek, Z.eqb_refl.
    unfold bind, ret. destruct (read_icy s w0) as [[[t|] w1]|]; reflexivity. }
  rewrite Step.
  destruct (read_icy s w) as [[r1 w1]|] eqn:R1.
  2:{ rewrite (read_icy_with_context s a w P) in R1. cbv zeta in R1.
      repeat match type of R1 with
             | context [if ?c then _ else _] => destruct c
             end; discriminate. }
  pose proof (read_icy_again s a w r1 w1 P K R1) as R2.
  destruct r1 as [t|]; do 3 eexists; (split; [reflexivity|]);
    rewrite Step, R2; reflexivity.
Qed.

(** X6.  After a reconnect of a read-mode session that did not end in
    [STREAM_OK], reading, writing and seeking return -1 and make no call into
    the library: the closed context is not used again. *)
Theorem io_after_failed_reconnect
  (s : stream) (a : AVIOContext) (arg arg' : ctrl_arg) (w w' : world)
  (r : Z) (s' : stream) (max_len : Z) (buffer : list Byte.byte) (len newpos : Z) :
  priv s = Some a ->
  ctx_write_flag a (lib w) = 0 ->
  control s STREAM_CTRL_RECONNECT arg w = Some ((r, s', arg'), w') ->
  r <> STREAM_OK ->
  fill_buffer s' max_len w' = Some ((-1, []), w') /\
  write_buffer s' buffer len w' = Some (-1, w') /\
  seek s' newpos w' = Some (-1, w').
Proof.
  intros P F E N. rewrite (control_reconnect_with_context s a arg w P), F in E.
  simpl in E. unfold reopened in E.
  destruct (open_f (set_priv None s) (after_close a w)) as [[[r0 s0] w0]|] eqn:O;
    [|discriminate].
  inversion E; subst. apply open_f_exits in O.
  assert (Q : priv s' = None)
    by (destruct O as [s' w' Q _ _ | s' _ _ _ _ _ | a' s' w' _ _ _];
        try congruence; exact Q).
  unfold fill_buffer, write_buffer, seek. rewrite Q. now repeat split.
Qed.

(** X7.  The library calls of a reconnect on a read-mode session: the old
    context is closed first, and then there is at most one [avio_open2], for
    the stream's own URL (wrapper prefixes skipped, "mms://" rewritten) and
    with the flags of the stream's mode.  Nothing else is called. *)
Theorem reconnect_closes_then_opens
  (s : stream) (a : AVIOContext) (arg arg' : ctrl_arg) (w w' : world)
  (r : Z) (s' : stream) :
  priv s = Some a ->
  ctx_write_flag a (lib w) = 0 ->
  control s STREAM_CTRL_RECONNECT arg w = Some ((r, s', arg'), w') ->
  calls w' = (calls w ++ [Call_avio_close a])%list \/
  exists f,
    url s = Some f /\
    calls w' = (calls w ++ [Call_avio_close a;
                            Call_avio_open2 (mms_to_mmsh (skip_prefixes f))
                              (open_flags s) (lavf_options (opts s))])%list.
Proof.
  intros P F E. rewrite (control_reconnect_with_context s a arg w P), F in E.
  simpl in E. unfold reopened in E.
  destruct (open_f (set_priv None s) (after_close a w)) as [[[r0 s0] w0]|] eqn:O;
    [|discriminate].
  inversion E; subst. apply open_f_trace in O.
  change (url (set_priv None s)) with (url s) in O.
  change (opts (set_priv None s)) with (opts s) in O.
  change (open_flags (set_priv None s)) with (open_flags s) in O.
  destruct (url s) as [f|]; [|left; apply O].
  destruct (CStr.starts_with (skip_prefixes f) "rtsp:"); [left; apply O|].
  right. exists f. split; [reflexivity|]. destruct O as [C _]. rewrite C.
  cbn [after_close calls]. rewrite <- app_assoc. reflexivity.
Qed.

(** ** More on [open_f] *)

Lemma report_unset_exact (entries : list (string * string)) (w : world) :
  report_unset entries w =
  Some (tt, {| lib := lib w; calls := calls w;
               msgs := msgs w ++ map unset_msg entries |}).
Proof.
  revert w. induction entries as [|[k v] rest IH]; intros w; simpl.
  - rewrite app_nil_r. now destruct w.
  - unfold_monad. rewrite IH. simpl. rewrite <- app_assoc. reflexivity.
Qed.

(** [open_f] when the library opens the file. *)
Lemma open_f_opened (s : stream) (w : world) (f : string)
  (err : Z) (a : AVIOContext) (dict' : AVDictionary) (l' : avio_state) :
  url s = Some f ->
  CStr.starts_with (skip_prefixes f) "rtsp:" = false ->
  avio_open2 (mms_to_mmsh (skip_prefixes f)) (open_flags s)
    (lavf_options (opts s)) (lib w) = (err, Some a, dict', l') ->
  0 <= err ->
  open_f s w =
  Some ((STREAM_OK, opened_stream s a l' (mms_to_mmsh (skip_prefixes f))),
        after_open (mms_to_mmsh (skip_prefixes f)) (open_flags s)
          (lavf_options (opts s)) l'
          (opening_msg (skip_prefixes f) :: map unset_msg (av_dict_entries dict')) w).
Proof.
  intros U R O E. unfold open_flags in O.
  unfold open_f, opened_stream, after_open, open_flags. simpl. rewrite U, R.
  unfold_monad. cbn [lib calls msgs]. rewrite O.
  apply Z.ltb_ge in E. rewrite E.
  rewrite report_unset_exact. cbv beta iota. cbn [lib calls msgs fst snd].
  rewrite <- app_assoc.
  destruct (ctx_av_class a l'); cbv beta iota; cbn [lib calls msgs fst snd];
    [destruct (0 <=? fst (av_opt_get a "mime_type" l'))|];
    destruct (CStr.starts_with (mms_to_mmsh (skip_prefixes f)) "rtmp");
    destruct (ctx_seekable a l' =? 0); reflexivity.
Qed.

(** X8.  An "rtsp:" URL, bare or behind a wrapper prefix, is not opened at
    all: [open_f] returns [STREAM_OK] with the demuxer forced to "lavf" and
    the format to "rtsp", makes no call into the library and logs nothing;
    the stream gets no handle and none of the I/O functions. *)
Theorem open_rtsp_is_left_to_the_demuxer
  (p rest : string) (s : stream) (w : world) :
  In p (EmptyString :: prefix) ->
  url s = Some (p ++ "rtsp:" ++ rest) ->
  open_f s w =
    Some ((STREAM_OK, set_demuxer "lavf" "rtsp" (set_seekable false (set_seek None s))),
          w) /\
  priv (set_demuxer "lavf" "rtsp" (set_seekable false (set_seek None s))) = priv s /\
  s_fill_buffer (set_demuxer "lavf" "rtsp" (set_seekable false (set_seek None s)))
    = s_fill_buffer s.
Proof.
  intros I U. split; [|split; reflexivity].
  assert (K : skip_prefixes (p ++ "rtsp:" ++ rest) = "rtsp:" ++ rest)
    by (destruct I as [<-|[<-|[<-|[]]]]; reflexivity).
  unfold open_f. simpl. rewrite U, K, starts_with_app. reflexivity.
Qed.

(** X9.  When [avio_open2] reports an error, [open_f] returns
    [STREAM_ERROR]; the stream keeps its handle and function members as they
    were (only [seek] and [seekable] are cleared), and the log gets the
    "Protocol not found" error exactly when the error is
    [AVERROR_PROTOCOL_NOT_FOUND]. *)
Theorem open_library_error
  (s : stream) (w : world) (f : string)
  (err : Z) (avio : option AVIOContext) (dict' : AVDictionary) (l' : avio_state) :
  url s = Some f ->
  CStr.starts_with (skip_prefixes f) "rtsp:" = false ->
  avio_open2 (mms_to_mmsh (skip_prefixes f)) (open_flags s)
    (lavf_options (opts s)) (lib w) = (err, avio, dict', l') ->
  err < 0 ->
  open_f s w =
  Some ((STREAM_ERROR, set_seekable false (set_seek None s)),
        after_open (mms_to_mmsh (skip_prefixes f)) (open_flags s)
          (lavf_options (opts s)) l'
          (opening_msg (skip_prefixes f) ::
           (if err =? AVERROR_PROTOCOL_NOT_FOUND then [protocol_not_found_msg] else []))
          w).
Proof.
  intros U R O E. unfold open_flags in O.
  unfold open_f, after_open, open_flags. simpl. rewrite U, R.
  unfold_monad. cbn [lib calls msgs]. rewrite O.
  apply Z.ltb_lt in E. rewrite E.
  destruct (err =? AVERROR_PROTOCOL_NOT_FOUND);
    cbv beta iota; cbn [lib calls msgs]; [rewrite <- app_assoc|]; reflexivity.
Qed.

(** X10.  When [avio_open2] stores a context, [open_f] returns [STREAM_OK]
    with that context as the stream's handle, the four I/O functions
    installed, [streaming] set, the seekable flag as the library reports it
    and [seek] installed exactly when the flag is set; the URL, the mode and
    the options of the stream are untouched. *)
Theorem open_success_installs_session
  (s : stream) (w : world) (f : string)
  (err : Z) (a : AVIOContext) (dict' : AVDictionary) (l' : avio_state) :
  url s = Some f ->
  CStr.starts_with (skip_prefixes f) "rtsp:" = false ->
  avio_open2 (mms_to_mmsh (skip_prefixes f)) (open_flags s)
    (lavf_options (opts s)) (lib w) = (err, Some a, dict', l') ->
  0 <= err ->
  exists s' w',
    open_f s w = Some ((STREAM_OK, s'), w') /\
    priv s' = Some a /\
    s_fill_buffer s' = Some Fn_fill_buffer /\
    s_write_buffer s' = Some Fn_write_buffer /\
    s_control s' = Some Fn_control /\
    s_close s' = Some Fn_close_f /\
    streaming s' = true /\
    seekable s' = negb (ctx_seekable a l' =? 0) /\
    s_seek s' = (if ctx_seekable a l' =? 0 then None else Some Fn_seek) /\
    url s' = url s /\ mode s' = mode s /\ opts s' = opts s /\
    lib w' = l' /\
    calls w' = (calls w ++ [Call_avio_open2 (mms_to_mmsh (skip_prefixes f))
                              (open_flags s) (lavf_options (opts s))])%list.
Proof.
  intros U R O E. do 2 eexists.
  split; [exact (open_f_opened s w f err a dict' l' U R O E)|].
  unfold opened_stream. cbn [lib calls after_open].
  destruct (ctx_av_class a l');
    [destruct (0 <=? fst (av_opt_get a "mime_type" l'))|];
    destruct (CStr.starts_with (mms_to_mmsh (skip_prefixes f)) "rtmp");
    destruct (ctx_seekable a l' =? 0); repeat split.
Qed.







(** ** The file name that [open_f] hands to the library *)

Lemma starts_with_split (p f : string) :
  CStr.starts_with f p = true -> f = p ++ CStr.advance (String.length p) f.
Proof.
  unfold CStr.starts_with. revert f.
  induction p as [|c p IH]; intros f E.
  - reflexivity.
  - destruct f as [|d f]; simpl in *; [discriminate|].
    destruct (Ascii.ascii_dec c d) as [<-|]; [|discriminate].
    f_equal. now apply IH.
Qed.

(** X15.  The loop over the wrapper prefixes takes off at most one "lavf://"
    and then at most one "ffmpeg://", and nothing else: the name it leaves is
    the URL without one of four possible heads. *)
Theorem skip_prefixes_takes_off_wrappers_only (filename : string) :
  exists head,
    In head [EmptyString; "lavf://"; "ffmpeg://"; "lavf://ffmpeg://"] /\
    filename = head ++ skip_prefixes filename.
Proof.
  unfold skip_prefixes, prefix. cbn [fold_left].
  destruct (CStr.starts_with filename "lavf://") eqn:A.
  - apply starts_with_split in A.
    set (rest := CStr.advance (String.length "lavf://") filename) in *.
    destruct (CStr.starts_with rest "ffmpeg://") eqn:C.
    + apply starts_with_split in C.
      exists "lavf://ffmpeg://". split; [simpl; auto|].
      rewrite A at 1. rewrite C at 1. reflexivity.
    + exists "lavf://". split; [simpl; auto | exact A].
  - destruct (CStr.starts_with filename "ffmpeg://") eqn:C.
    + apply starts_with_split in C. exists "ffmpeg://". split; [simpl; auto | exact C].
    + exists EmptyString. split; [simpl; auto | reflexivity].
Qed.

(** X16.  The order of the table matters: "lavf://" in front of "ffmpeg://"
    loses both wrappers, "ffmpeg://" in front of "lavf://" loses the first
    only, and a doubled wrapper loses one. *)
Theorem skip_prefixes_follows_table_order (u : string) :
  skip_prefixes ("lavf://" ++ "ffmpeg://" ++ u) = u /\
  skip_prefixes ("ffmpeg://" ++ "lavf://" ++ u) = "lavf://" ++ u /\
  skip_prefixes ("lavf://" ++ "lavf://" ++ u) = "lavf://" ++ u /\
  skip_prefixes ("ffmpeg://" ++ "ffmpeg://" ++ u) = "ffmpeg://" ++ u.
Proof.
  unfold skip_prefixes, prefix. cbn [fold_left]. split; [|split; [|split]].
  - rewrite (starts_with_app "lavf://" ("ffmpeg://" ++ u)), advance_app.
    now rewrite starts_with_app, advance_app.
  - replace (CStr.starts_with ("ffmpeg://" ++ "lavf://" ++ u) "lavf://")
      with false by reflexivity.
    now rewrite (starts_with_app "ffmpeg://" ("lavf://" ++ u)), advance_app.
  - rewrite (starts_with_app "lavf://" ("lavf://" ++ u)), advance_app.
    reflexivity.
  - replace (CStr.starts_with ("ffmpeg://" ++ "ffmpeg://" ++ u) "lavf://")
      with false by reflexivity.
    now rewrite (starts_with_app "ffmpeg://" ("ffmpeg://" ++ u)), advance_app.
Qed.

Lemma eatstart0_app (p rest : string) :
  Bstr.bstr_eatstart0 (p ++ rest) p = Some rest.
Proof. unfold Bstr.bstr_eatstart0. now rewrite prefix_app, advance_app. Qed.

Lemma mms_to_mmsh_alias (alias rest : string) :
  In alias ["mms://"; "mmshttp://"] ->
  mms_to_mmsh (alias ++ rest) = "mmsh://" ++ rest.
Proof.
  intros [<-|[<-|[]]]; unfold mms_to_mmsh; cbn [Bstr.bstr0].
  - now rewrite eatstart0_app.
  - replace (Bstr.bstr_eatstart0 ("mmshttp://" ++ rest) "mms://") with (@None string)
      by reflexivity.
    now rewrite eatstart0_app.
Qed.

(** X17.  The rewrite of the old MMS names: "mms://" and "mmshttp://" in
    front of any remainder become "mmsh://" in front of the same remainder,
    and the rewrite of a name that has been rewritten changes nothing. *)
Theorem mms_names_become_mmsh (f rest : string) :
  mms_to_mmsh ("mms://" ++ rest) = "mmsh://" ++ rest /\
  mms_to_mmsh ("mmshttp://" ++ rest) = "mmsh://" ++ rest /\
  mms_to_mmsh (mms_to_mmsh f) = mms_to_mmsh f.
Proof.
  split; [|split].
  - apply mms_to_mmsh_alias. simpl. auto.
  - apply mms_to_mmsh_alias. simpl. auto.
  - unfold mms_to_mmsh at 2 3. cbn [Bstr.bstr0].
    destruct (Bstr.bstr_eatstart0 f "mms://") as [r|] eqn:A; [reflexivity|].
    destruct (Bstr.bstr_eatstart0 f "mmshttp://") as [r|] eqn:C; [reflexivity|].
    unfold mms_to_mmsh. cbn [Bstr.bstr0]. now rewrite A, C.
Qed.

(** X18.  An "mms://" or "mmshttp://" URL, bare or behind a wrapper prefix,
    reaches the library as "mmsh://" with the remainder unchanged: an
    [open_f] that returns has made the one call [avio_open2] with that
    name. *)
Theorem open_mms_url_is_opened_as_mmsh
  (p alias rest : string) (s : stream) (w : world)
  (r : Z) (s' : stream) (w' : world) :
  In p (EmptyString :: prefix) ->
  In alias ["mms://"; "mmshttp://"] ->
  url s = Some (p ++ alias ++ rest) ->
  open_f s w = Some ((r, s'), w') ->
  calls w' = (calls w ++ [Call_avio_open2 ("mmsh://" ++ rest) (open_flags s)
                            (lavf_options (opts s))])%list.
Proof.
  intros Ip Ia U O. apply open_f_trace in O. rewrite U in O.
  assert (K : skip_prefixes (p ++ alias ++ rest) = alias ++ rest)
    by (destruct Ip as [<-|[<-|[<-|[]]]], Ia as [<-|[<-|[]]]; reflexivity).
  rewrite K in O.
  replace (CStr.starts_with (alias ++ rest) "rtsp:") with false in O
    by (destruct Ia as [<-|[<-|[]]]; reflexivity).
  replace (mms_to_mmsh (alias ++ rest)) with ("mmsh://" ++ rest) in O
    by (symmetry; now apply mms_to_mmsh_alias).
  apply O.
Qed.

(** ** More on [read_icy] *)

Lemma equals0_dash (x : option string) :
  Bstr.bstr_equals0 (Bstr.bstr0 x) "-" = true <-> x = Some "-".
Proof.
  unfold Bstr.bstr_equals0. destruct x as [v|]; cbn [Bstr.bstr0].
  - rewrite String.eqb_eq. split; congruence.
  - split; discriminate.
Qed.

(** X19.  When [read_icy] delivers and when it does not.  On a stream with a
    context it returns; it returns null exactly when the context has no
    class, or both the header field and the packet field are null or empty,
    or the packet field is the mark "-"; a call that returns null leaves the
    world as it was, and a call that returns a tag set has written the mark
    to the packet field and has done nothing else. *)
Theorem read_icy_marks_exactly_what_it_delivers
  (s : stream) (a : AVIOContext) (w : world) :
  priv s = Some a ->
  exists r w',
    read_icy s w = Some (r, w') /\
    (r = None <->
       ctx_av_class a (lib w) = false \/
       (CStr.null_or_empty (icy_field a "icy_metadata_headers" (lib w)) = true /\
        CStr.null_or_empty (icy_field a "icy_metadata_packet" (lib w)) = true) \/
       icy_field a "icy_metadata_packet" (lib w) = Some "-") /\
    (r = None -> w' = w) /\
    (r <> None -> w' = after_mark a w).
Proof.
  intros P. rewrite (read_icy_with_context s a w P). cbv zeta.
  fold (icy_field a "icy_metadata_headers" (lib w)).
  fold (icy_field a "icy_metadata_packet" (lib w)).
  fold (after_mark a w).
  destruct (ctx_av_class a (lib w)) eqn:C; cbn [negb].
  2:{ do 2 eexists. split; [reflexivity|]. repeat split; auto; congruence. }
  destruct (CStr.null_or_empty (icy_field a "icy_metadata_headers" (lib w))
            && CStr.null_or_empty (icy_field a "icy_metadata_packet" (lib w))) eqn:Emp.
  { apply andb_true_iff in Emp.
    do 2 eexists. split; [reflexivity|]. repeat split; auto; congruence. }
  destruct (Bstr.bstr_equals0 (Bstr.bstr0 (icy_field a "icy_metadata_packet" (lib w))) "-")
    eqn:Dash.
  { apply equals0_dash in Dash.
    do 2 eexists. split; [reflexivity|]. repeat split; auto; congruence. }
  do 2 eexists. split; [reflexivity|]. split; [|split; [discriminate | reflexivity]].
  split; [discriminate|].
  intros [F | [[E1 E2] | D]].
  - discriminate.
  - rewrite E1, E2 in Emp. discriminate.
  - apply equals0_dash in D. congruence.
Qed.

(** *** Strings that are concatenations *)

Lemma length_app (a b : string) :
  String.length (a ++ b) = (String.length a + String.length b)%nat.
Proof. induction a as [|c a IH]; simpl; [reflexivity | now rewrite IH]. Qed.

Lemma len_app (a b : string) : Bstr.len (a ++ b) = Bstr.len a + Bstr.len b.
Proof. unfold Bstr.len. rewrite length_app. lia. Qed.

Lemma len_nonneg (a : string) : 0 <= Bstr.len a.
Proof. unfold Bstr.len. lia. Qed.

Lemma app_empty_r (a : string) : a ++ EmptyString = a.
Proof. induction a as [|c a IH]; simpl; [reflexivity | now rewrite IH]. Qed.

Lemma app_assoc_str (a b c : string) : (a ++ b) ++ c = a ++ (b ++ c).
Proof. induction a as [|d a IH]; simpl; [reflexivity | now rewrite IH]. Qed.

Lemma substring_head (a b : string) :
  String.substring 0 (String.length a) (a ++ b) = a.
Proof. apply prefix_correct, prefix_app. Qed.

Lemma substring_all (a : string) : String.substring 0 (String.length a) a = a.
Proof. rewrite <- (app_empty_r a) at 2. apply substring_head. Qed.

Lemma substring_tail (a b : string) :
  String.substring (String.length a) (String.length b) (a ++ b) = b.
Proof. induction a as [|c a IH]; simpl; [apply substring_all | exact IH]. Qed.

(** The start of a string up to a given length, and the rest. *)
Lemma splice_head (a b : string) :
  Bstr.bstr_splice (a ++ b) 0 (Bstr.len a) = a.
Proof.
  unfold Bstr.bstr_splice. pose proof (len_nonneg a) as Na.
  pose proof (len_nonneg b) as Nb. rewrite len_app.
  replace (0 <? 0) with false by reflexivity.
  replace (Bstr.len a <? 0) with false by (symmetry; apply Z.ltb_ge; lia).
  rewrite Z.min_l, Z.max_r by lia. rewrite Z.max_l by lia.
  rewrite Z.sub_0_r. unfold Bstr.len. rewrite Nat2Z.id. apply substring_head.
Qed.

Lemma cut_head (a b : string) : Bstr.bstr_cut (a ++ b) (Bstr.len a) = b.
Proof.
  unfold Bstr.bstr_cut. pose proof (len_nonneg a) as Na.
  pose proof (len_nonneg b) as Nb. rewrite len_app.
  replace (Bstr.len a <? 0) with false by (symmetry; apply Z.ltb_ge; lia).
  rewrite Z.min_l by lia. unfold Bstr.len. rewrite Nat2Z.id. apply advance_app.
Qed.

(** [bstrchr] in a string whose head has no such character. *)
Lemma bstrchr_after (t : string) (c : ascii) (x : string) :
  Bstr.bstrchr t c < 0 ->
  Bstr.bstrchr (t ++ x) c =
  (if Bstr.bstrchr x c <? 0 then -1 else Bstr.len t + Bstr.bstrchr x c).
Proof.
  induction t as [|d t IH]; intros N.
  - cbn [append]. unfold Bstr.len. cbn [String.length Z.of_nat].
    pose proof (bstrchr_lower x c).
    destruct (Bstr.bstrchr x c <? 0) eqn:E; [apply Z.ltb_lt in E; lia | lia].
  - cbn [append Bstr.bstrchr] in *.
    destruct (Ascii.eqb d c); [lia|].
    pose proof (bstrchr_lower t c) as L.
    destruct (Bstr.bstrchr t c <? 0) eqn:E; [|apply Z.ltb_ge in E; lia].
    apply Z.ltb_lt in E. rewrite (IH E).
    pose proof (bstrchr_lower x c) as Lx. pose proof (len_nonneg t) as Nt.
    replace (Bstr.len (String d t)) with (Bstr.len t + 1)
      by (unfold Bstr.len; cbn [String.length]; lia).
    destruct (Bstr.bstrchr x c <? 0) eqn:Ex; [reflexivity|].
    apply Z.ltb_ge in Ex.
    replace (Bstr.len t + Bstr.bstrchr x c <? 0) with false
      by (symmetry; apply Z.ltb_ge; lia).
    lia.
Qed.

Lemma bstrchr_here (c : ascii) (x : string) : Bstr.bstrchr (String c x) c = 0.
Proof. cbn [Bstr.bstrchr]. now rewrite Ascii.eqb_refl. Qed.

Lemma bstrchr_app_none (a b : string) (c : ascii) :
  Bstr.bstrchr a c < 0 -> Bstr.bstrchr b c < 0 -> Bstr.bstrchr (a ++ b) c < 0.
Proof.
  intros Na Nb. rewrite (bstrchr_after a c b Na).
  apply Z.ltb_lt in Nb. rewrite Nb. lia.
Qed.

Lemma bstr_find_head (c : ascii) (p x : string) :
  Bstr.bstr_find (String c p ++ x) (String c p) = 0.
Proof.
  cbn [append Bstr.bstr_find].
  replace (String.prefix (String c p) (String c (p ++ x))) with true; [reflexivity|].
  symmetry. apply (prefix_app (String c p) x).
Qed.




(** *** One line of the header block *)

Lemma find_separator (k v : string) :
  Bstr.bstrchr k ":"%char < 0 ->
  Bstr.bstr_find (k ++ ": " ++ v) ": " = Bstr.len k.
Proof.
  induction k as [|d k IH]; intros N.
  - apply (bstr_find_head ":"%char " " v).
  - cbn [Bstr.bstrchr] in N.
    destruct (Ascii.eqb d ":"%char) eqn:D; [lia|].
    pose proof (bstrchr_lower k ":"%char) as L.
    destruct (Bstr.bstrchr k ":"%char <? 0) eqn:E; [|apply Z.ltb_ge in E; lia].
    apply Z.ltb_lt in E. specialize (IH E).
    cbn [append Bstr.bstr_find]. cbn [append] in IH. rewrite IH.
    replace (String.prefix ": " (String d (k ++ String ":" (String " " v))))
      with false.
    + pose proof (len_nonneg k) as Nk.
      replace (Bstr.len k <? 0) with false by (symmetry; apply Z.ltb_ge; lia).
      unfold Bstr.len. cbn [String.length]. lia.
    + cbn [String.prefix].
      destruct (Ascii.ascii_dec ":"%char d) as [<-|]; [|reflexivity].
      rewrite Ascii.eqb_refl in D. discriminate.
Qed.

Lemma split_key_value (k v : string) :
  Bstr.bstrchr k ":"%char < 0 ->
  Bstr.bstr_split_tok (k ++ ": " ++ v) ": " = (true, k, v).
Proof.
  intros N. unfold Bstr.bstr_split_tok. rewrite (find_separator k v N).
  pose proof (len_nonneg k) as Nk. pose proof (len_nonneg v) as Nv.
  replace (Bstr.len k <? 0) with false by (symmetry; apply Z.ltb_ge; lia).
  rewrite splice_head.
  replace (Bstr.len k + Bstr.len ": ") with (Bstr.len (k ++ ": "))
    by (rewrite len_app; reflexivity).
  rewrite <- app_assoc_str, cut_head.
  rewrite app_assoc_str, !len_app.
  replace (Bstr.len k =? Bstr.len k + (Bstr.len ": " + Bstr.len v)) with false.
  - reflexivity.
  - symmetry. apply Z.eqb_neq. change (Bstr.len ": ") with 2. lia.
Qed.

Lemma strip_crlf (body : string) :
  Bstr.bstr_strip_linebreaks (body ++ CStr.CRLF) = body.
Proof.
  unfold Bstr.bstr_strip_linebreaks, Bstr.ends_with.
  rewrite length_app. change (String.length CStr.CRLF) with 2%nat.
  replace (2 <=? String.length body + 2)%nat with true
    by (symmetry; apply Nat.leb_le; lia).
  replace (String.length body + 2 - 2)%nat with (String.length body) by lia.
  pose proof (substring_tail body CStr.CRLF) as T.
  change (String.length CStr.CRLF) with 2%nat in T.
  rewrite T, String.eqb_refl. cbn [andb].
  rewrite len_app. change (Bstr.len CStr.CRLF) with 2.
  replace (Bstr.len body + 2 - 2) with (Bstr.len body) by lia.
  apply splice_head.
Qed.

Lemma getline_first (line rest : string) :
  Bstr.bstrchr line "010"%char < 0 ->
  Bstr.bstr_getline (line ++ CStr.LF ++ rest) = (line ++ CStr.LF, rest).
Proof.
  intros N. unfold Bstr.bstr_getline.
  change (CStr.LF ++ rest) with (String "010"%char rest).
  rewrite (bstrchr_after line "010"%char _ N), bstrchr_here.
  replace (0 <? 0) with false by reflexivity. rewrite Z.add_0_r.
  pose proof (len_nonneg line) as Nl.
  replace (Bstr.len line <? 0) with false by (symmetry; apply Z.ltb_ge; lia).
  replace (Bstr.len line + 1) with (Bstr.len (line ++ CStr.LF))
    by (rewrite len_app; reflexivity).
  change (String "010"%char rest) with (CStr.LF ++ rest).
  rewrite <- app_assoc_str, splice_head, cut_head. reflexivity.
Qed.

(** X21.  The header loop takes one line at a time: a header block that
    begins with a line [key: value] ended by CRLF, where the key has no
    colon and neither part has a line feed, gives the tags of the rest of the
    block on top of the tag set with [key] set to [value]. *)
Theorem header_loop_reads_key_value_line
  (key value rest : string) (res : Tags.mp_tags) :
  Bstr.bstrchr key ":"%char < 0 ->
  Bstr.bstrchr key "010"%char < 0 ->
  Bstr.bstrchr value "010"%char < 0 ->
  let header := key ++ ": " ++ value ++ CStr.CRLF ++ rest in
  icy_header_lines (String.length header) header res =
  icy_header_lines (String.length rest) rest (Tags.mp_tags_set_bstr res key value).
Proof.
  intros Nc Nk Nv header.
  assert (Shape : header = (key ++ ": " ++ value ++ CStr.CR) ++ CStr.LF ++ rest).
  { unfold header, CStr.CRLF. now rewrite !app_assoc_str. }
  assert (Short : (String.length rest < String.length header)%nat).
  { unfold header. rewrite !length_app. change (String.length CStr.CRLF) with 2%nat. lia. }
  destruct (String.length header) as [|n] eqn:L; [lia|].
  cbn [icy_header_lines].
  replace (Bstr.len header =? 0) with false
    by (symmetry; apply Z.eqb_neq; unfold Bstr.len; lia).
  rewrite Shape, getline_first.
  2:{ repeat apply bstrchr_app_none; auto; reflexivity. }
  replace ((key ++ ": " ++ value ++ CStr.CR) ++ CStr.LF)
    with ((key ++ ": " ++ value) ++ CStr.CRLF)
    by (unfold CStr.CRLF; now rewrite !app_assoc_str).
  rewrite strip_crlf, (split_key_value key value Nc).
  apply icy_header_lines_enough; lia.
Qed.

(** A header block of one line. *)
Lemma header_lines_one (key value : string) :
  Bstr.bstrchr key ":"%char < 0 ->
  Bstr.bstrchr key "010"%char < 0 ->
  Bstr.bstrchr value "010"%char < 0 ->
  icy_header_lines (String.length (key ++ ": " ++ value ++ CStr.CRLF))
    (key ++ ": " ++ value ++ CStr.CRLF) [] = [(key, value)].
Proof.
  intros Nc Nk Nv.
  set (header := key ++ ": " ++ value ++ CStr.CRLF).
  assert (Shape : header = (key ++ ": " ++ value ++ CStr.CR) ++ CStr.LF ++ EmptyString).
  { unfold header, CStr.CRLF. now rewrite !app_assoc_str. }
  assert (Long : (0 < String.length header)%nat).
  { unfold header. rewrite !length_app. change (String.length CStr.CRLF) with 2%nat. lia. }
  destruct (String.length header) as [|n] eqn:L; [lia|].
  cbn [icy_header_lines].
  replace (Bstr.len header =? 0) with false
    by (symmetry; apply Z.eqb_neq; unfold Bstr.len; lia).
  rewrite Shape, getline_first.
  2:{ repeat apply bstrchr_app_none; auto; reflexivity. }
  replace ((key ++ ": " ++ value ++ CStr.CR) ++ CStr.LF)
    with ((key ++ ": " ++ value) ++ CStr.CRLF)
    by (unfold CStr.CRLF; now rewrite !app_assoc_str).
  rewrite strip_crlf, (split_key_value key value Nc).
  destruct n; reflexivity.
Qed.

(** X22.  Metadata on start: with a header field that is one line
    [key: value] ended by CRLF and a packet field that is null or empty,
    [read_icy] returns the tag set with that one tag and no title, and marks
    the packet as delivered. *)
Theorem read_icy_delivers_header_on_start
  (s : stream) (a : AVIOContext) (w : world) (key value : string) :
  priv s = Some a ->
  ctx_av_class a (lib w) = true ->
  icy_field a "icy_metadata_headers" (lib w)
    = Some (key ++ ": " ++ value ++ CStr.CRLF) ->
  CStr.null_or_empty (icy_field a "icy_metadata_packet" (lib w)) = true ->
  Bstr.bstrchr key ":"%char < 0 ->
  Bstr.bstrchr key "010"%char < 0 ->
  Bstr.bstrchr value "010"%char < 0 ->
  read_icy s w = Some (Some [(key, value)], after_mark a w).
Proof.
  intros P C Fh Fp Nc Nk Nv. rewrite (read_icy_with_context s a w P). cbv zeta.
  fold (icy_field a "icy_metadata_headers" (lib w)).
  fold (icy_field a "icy_metadata_packet" (lib w)).
  fold (after_mark a w).
  rewrite C, Fh. cbn [negb Bstr.bstr0].
  replace (CStr.null_or_empty (Some (key ++ ": " ++ value ++ CStr.CRLF)))
    with false by (destruct key; reflexivity).
  cbn [andb].
  assert (Pk : Bstr.bstr0 (icy_field a "icy_metadata_packet" (lib w)) = EmptyString).
  { destruct (icy_field a "icy_metadata_packet" (lib w)) as [[|c x]|];
      try reflexivity; discriminate. }
  rewrite Pk.
  replace (Bstr.bstr_equals0 EmptyString "-") with false by reflexivity.
  pose proof (header_lines_one key value) as Hl.
  rewrite (Hl Nc Nk Nv). reflexivity.
Qed.

(** X23.  The schemes that [open_f] knows by name are among the protocols
    that the stream advertises: each wrapper prefix of the table is an
    advertised scheme followed by "://", and so are the schemes of the
    special cases (rtsp, rtmp, mms, mmshttp) and the scheme that the MMS
    names are rewritten to. *)
Theorem advertised_protocols_cover_open_f :
  (forall p, In p prefix ->
     exists scheme, In scheme (protocols stream_info_ffmpeg) /\ p = scheme ++ "://") /\
  (forall scheme, In scheme ["rtsp"; "rtmp"; "mms"; "mmshttp"; "mmsh"] ->
     In scheme (protocols stream_info_ffmpeg)) /\
  can_write stream_info_ffmpeg = true.
Proof.
  split; [|split].
  - intros p [<-|[<-|[]]]; [exists "lavf" | exists "ffmpeg"];
      (split; [simpl; auto | reflexivity]).
  - intros scheme I. simpl in I.
    repeat (destruct I as [<-|I]; [simpl; auto 30|]). destruct I.
  - reflexivity.
Qed.

End Properties.

(** * The adapter on the small library *)

Section Runs.

#[local] Existing Instances Sample.stream_h Sample.avio.

Import Sample.

(** With no session, the code 0 (none of 11 to 14) gets -1. *)
Lemma control_unrecognized_is_unsupported_run :
  exists r,
    control (fresh (Some "http://radio.example/live") 0) 0 ArgNone idle
      = Some ((r, fresh (Some "http://radio.example/live") 0, ArgNone), idle) /\
    r = STREAM_UNSUPPORTED /\ r <> STREAM_ERROR.
Proof.
  apply (control_unrecognized_is_unsupported
           (fresh (Some "http://radio.example/live") 0) 0 ArgNone idle).
  - reflexivity.
  - simpl. lia.
  - simpl. lia.
Defined.

(** A stream that was never opened reads, writes and seeks to -1. *)
Lemma io_without_handle_returns_minus_one_run :
  fill_buffer (fresh (Some "http://radio.example/live") 0) 2048 idle
    = Some ((-1, []), idle) /\
  write_buffer (fresh (Some "http://radio.example/live") 0) [] 0 idle
    = Some (-1, idle) /\
  seek (fresh (Some "http://radio.example/live") 0) 0 idle = Some (-1, idle).
Proof.
  apply (io_without_handle_returns_minus_one
           (fresh (Some "http://radio.example/live") 0) 2048 [] 0 0 idle).
  reflexivity.
Defined.

(** The radio stream is opened and not seekable: no seek function. *)
Lemma open_not_seekable_installs_no_seek_run :
  seekable radio = false /\ s_seek radio = None.
Proof.
  apply (open_not_seekable_installs_no_seek
           (fresh (Some "http://radio.example/live") 0) idle 1 radio on_air 1%nat).
  - reflexivity.
  - reflexivity.
  - reflexivity.
  - reflexivity.
Defined.

(** Reconnecting the radio stream, a read-mode session. *)
Lemma reconnect_refused_for_write_reopens_for_read_run :
  (ctx_write_flag 1%nat (lib on_air) <> 0 ->
   control radio STREAM_CTRL_RECONNECT ArgNone on_air
     = Some ((STREAM_UNSUPPORTED, radio, ArgNone), on_air)) /\
  (ctx_write_flag 1%nat (lib on_air) = 0 ->
   control radio STREAM_CTRL_RECONNECT ArgNone on_air =
     reopened ArgNone (open_f (set_priv None radio) (after_close 1%nat on_air)) /\
   url (set_priv None radio) = url radio /\
   mode (set_priv None radio) = mode radio /\
   priv (set_priv None radio) = None).
Proof.
  apply (reconnect_refused_for_write_reopens_for_read radio 1%nat ArgNone on_air).
  reflexivity.
Defined.

Lemma reconnect_failure_leaves_no_handle_run :
  priv lost = Some 1%nat /\ priv lost_after = None.
Proof.
  split; [reflexivity|].
  apply (reconnect_failure_leaves_no_handle
           lost 1%nat ArgNone ArgNone on_air lost_world 0 lost_after).
  - reflexivity.
  - reflexivity.
  - vm_compute. reflexivity.
  - simpl. lia.
Defined.

(** A write-mode stream without a session is reopened on reconnect. *)
Lemma reconnect_without_handle_reopens_run :
  mode (fresh (Some "http://radio.example/live") 1) = STREAM_WRITE /\
  control (fresh (Some "http://radio.example/live") 1) STREAM_CTRL_RECONNECT ArgNone idle
    = reopened ArgNone (open_f (fresh (Some "http://radio.example/live") 1) idle).
Proof.
  split; [reflexivity|].
  apply (reconnect_without_handle_reopens
           (fresh (Some "http://radio.example/live") 1) ArgNone idle).
  reflexivity.
Defined.

(** An open without URL stops at once; an open with the empty URL goes to
    the library, which knows no protocol for it. *)
Lemma open_missing_url_fails_empty_url_reaches_library_run :
  open_f (fresh None 0) idle =
  Some ((STREAM_ERROR, set_seekable false (set_seek None (fresh None 0))),
        {| lib := lib idle; calls := calls idle;
           msgs := msgs idle ++ [(MSGL_ERR, "No URL" ++ CStr.LF)] |}) /\
  exists r s' w',
    open_f (fresh (Some EmptyString) 0) idle = Some ((r, s'), w') /\
    lib w' = lib idle /\
    calls w' = (calls idle ++
                [Call_avio_open2 EmptyString (open_flags (fresh (Some EmptyString) 0))
                   (lavf_options (opts (fresh (Some EmptyString) 0)))])%list.
Proof.
  split.
  - apply (proj1 (open_missing_url_fails_empty_url_reaches_library (fresh None 0) idle)).
    reflexivity.
  - apply (proj2 (open_missing_url_fails_empty_url_reaches_library
                    (fresh (Some EmptyString) 0) idle)
             eq_refl (-1330794744) None [("tls_verify", "0"); ("icy", "1")] (lib idle)).
    + reflexivity.
    + left. lia.
Defined.

(** C2, as the specification has it, fails on the empty URL: [open_f] does
    not stop at once but calls [avio_open2] with the empty file name, and the
    failure it returns is the library's ("Protocol not found"), not the
    "No URL" of the missing URL. *)
Lemma open_empty_url_calls_avio_open2 :
  outcome (open_f (fresh (Some EmptyString) 0) idle)
    = Some (0, None, [Call_avio_open2 EmptyString 1 [("tls_verify", "0"); ("icy", "1")]]) /\
  calls idle = [] /\
  option_map (fun x => msgs (snd x)) (open_f (fresh (Some EmptyString) 0) idle)
    = Some [(MSGL_V, "Opening " ++ CStr.LF);
            (MSGL_ERR, "Protocol not found. Make sure ffmpeg/Libav is compiled with networking support." ++ CStr.LF)].
Proof. repeat split. Qed.

(** The wrapper in front of a plain URL changes nothing. *)
Lemma wrapper_prefix_is_transparent_run :
  open_f (set_url (Some ("lavf://" ++ "http://radio.example/live"))
            (fresh None 0)) idle =
  with_url (Some ("lavf://" ++ "http://radio.example/live"))
    (open_f (set_url (Some "http://radio.example/live") (fresh None 0)) idle).
Proof.
  apply (wrapper_prefix_is_transparent "lavf://" "http://radio.example/live"
           (fresh None 0) idle).
  - simpl. auto.
  - reflexivity.
Defined.

(** C3, as the specification has it, fails when the URL behind the wrapper
    begins with the wrapper again: "lavf://" is a prefix of the table, yet
    opening "lavf://" ++ u for u = "lavf://http://radio.example/live" hands
    the library the file name u, which it cannot open ([STREAM_ERROR], no
    handle), while opening u hands it "http://radio.example/live"
    ([STREAM_OK], a handle). *)
Lemma nested_wrapper_prefix_is_not_transparent :
  In "lavf://" prefix /\
  outcome (open_f (fresh (Some ("lavf://" ++ "lavf://http://radio.example/live")) 0) idle)
    = Some (0, None,
            [Call_avio_open2 "lavf://http://radio.example/live" 1
               [("tls_verify", "0"); ("icy", "1")]]) /\
  outcome (open_f (fresh (Some "lavf://http://radio.example/live") 0) idle)
    = Some (1, Some 1%nat,
            [Call_avio_open2 "http://radio.example/live" 1
               [("tls_verify", "0"); ("icy", "1")]]).
Proof. repeat split. simpl. auto. Qed.

(** The radio stream's metadata is delivered once. *)
Lemma read_icy_twice_gives_nothing_new_run :
  exists r1 w1,
    read_icy radio on_air = Some (r1, w1) /\
    exists w2, read_icy radio w1 = Some (None, w2).
Proof.
  apply (read_icy_twice_gives_nothing_new radio 1%nat on_air).
  - reflexivity.
  - simpl. split; [lia | reflexivity].
Defined.

(** The radio stream's metadata. *)
Lemma read_icy_station_and_title_run :
  exists tags,
    read_icy radio on_air =
    Some (Some tags,
          {| lib := av_opt_set 1%nat "icy_metadata_packet" "-" (lib on_air);
             calls := calls on_air ++ [Call_av_opt_set 1%nat "icy_metadata_packet" "-"];
             msgs := msgs on_air |}) /\
    tags = [("StationName", "Test"); ("icy-title", "Now Playing")] /\
    In ("StationName", "Test") tags /\
    In ("icy-title", "Now Playing") tags.
Proof.
  apply (read_icy_station_and_title radio 1%nat on_air 0 0).
  - reflexivity.
  - reflexivity.
  - reflexivity.
  - lia.
  - reflexivity.
  - lia.
Defined.

(** ** The further properties on the small library *)

Lemma write_buffer_writes_then_flushes_run :
  exists r w',
    write_buffer radio [] 0 on_air = Some (r, w') /\
    lib w' = avio_flush 1%nat (avio_write 1%nat [] 0 (lib on_air)) /\
    calls w' = (calls on_air ++ [Call_avio_write 1%nat [] 0; Call_avio_flush 1%nat])%list /\
    msgs w' = msgs on_air /\
    r = (if ctx_error 1%nat (lib w') =? 0 then 0 else -1).
Proof.
  apply (write_buffer_writes_then_flushes radio 1%nat [] 0 on_air).
  reflexivity.
Defined.

Lemma seek_on_session_returns_zero_or_one_run :
  exists r w',
    seek radio 4096 on_air = Some (r, w') /\
    (r = 0 \/ r = 1) /\
    (r = 1 <-> 0 <= fst (avio_seek 1%nat 4096 SEEK_SET (lib on_air))) /\
    lib w' = snd (avio_seek 1%nat 4096 SEEK_SET (lib on_air)) /\
    calls w' = (calls on_air ++ [Call_avio_seek 1%nat 4096 SEEK_SET])%list.
Proof.
  apply (seek_on_session_returns_zero_or_one radio 1%nat 4096 on_air).
  reflexivity.
Defined.

Lemma control_request_keeps_stream_run :
  exists r arg' w',
    control radio STREAM_CTRL_GET_SIZE ArgNone on_air = Some ((r, radio, arg'), w') /\
    (r = -1 \/ r = 1 \/ r = STREAM_UNSUPPORTED) /\
    msgs w' = msgs on_air.
Proof.
  apply (control_request_keeps_stream radio STREAM_CTRL_GET_SIZE ArgNone on_air).
  - simpl. lia.
  - simpl. intros E. lia.
Defined.

Lemma get_metadata_twice_is_unsupported_run :
  exists r1 arg1 w1,
    control radio STREAM_CTRL_GET_METADATA ArgNone on_air = Some ((r1, radio, arg1), w1) /\
    control radio STREAM_CTRL_GET_METADATA arg1 w1
      = Some ((STREAM_UNSUPPORTED, radio, ArgTags None), w1).
Proof.
  apply (get_metadata_twice_is_unsupported radio 1%nat ArgNone on_air).
  - reflexivity.
  - simpl. split; [lia | reflexivity].
Defined.

Lemma io_after_failed_reconnect_run :
  fill_buffer lost_after 2048 lost_world = Some ((-1, []), lost_world) /\
  write_buffer lost_after [] 0 lost_world = Some (-1, lost_world) /\
  seek lost_after 0 lost_world = Some (-1, lost_world).
Proof.
  apply (io_after_failed_reconnect
           lost 1%nat ArgNone ArgNone on_air lost_world 0 lost_after 2048 [] 0 0).
  - reflexivity.
  - reflexivity.
  - vm_compute. reflexivity.
  - simpl. lia.
Defined.

Lemma reconnect_closes_then_opens_run :
  calls lost_world = (calls on_air ++ [Call_avio_close 1%nat])%list \/
  exists f,
    url lost = Some f /\
    calls lost_world =
      (calls on_air ++ [Call_avio_close 1%nat;
                        Call_avio_open2 (mms_to_mmsh (skip_prefixes f))
                          (open_flags lost) (lavf_options (opts lost))])%list.
Proof.
  apply (reconnect_closes_then_opens
           lost 1%nat ArgNone ArgNone on_air lost_world 0 lost_after).
  - reflexivity.
  - reflexivity.
  - vm_compute. reflexivity.
Defined.

Lemma open_rtsp_is_left_to_the_demuxer_run :
  open_f (fresh (Some ("lavf://" ++ "rtsp:" ++ "//cam.example/1")) 0) idle =
    Some ((STREAM_OK,
           set_demuxer "lavf" "rtsp"
             (set_seekable false
                (set_seek None (fresh (Some ("lavf://" ++ "rtsp:" ++ "//cam.example/1")) 0)))),
          idle).
Proof.
  apply (proj1 (open_rtsp_is_left_to_the_demuxer "lavf://" "//cam.example/1"
                  (fresh (Some ("lavf://" ++ "rtsp:" ++ "//cam.example/1")) 0) idle
                  ltac:(simpl; auto) eq_refl)).
Defined.

Lemma open_library_error_run :
  open_f (fresh (Some "ftp://radio.example/live") 0) idle =
  Some ((STREAM_ERROR,
         set_seekable false (set_seek None (fresh (Some "ftp://radio.example/live") 0))),
        after_open "ftp://radio.example/live" AVIO_FLAG_READ
          [("tls_verify", "0"); ("icy", "1")] (lib idle)
          [opening_msg "ftp://radio.example/live"; protocol_not_found_msg] idle).
Proof.
  exact (open_library_error (H:=stream_h) (B:=avio)
           (fresh (Some "ftp://radio.example/live") 0) idle
           "ftp://radio.example/live" (-1330794744) None
           [("tls_verify", "0"); ("icy", "1")] (lib idle)
           eq_refl eq_refl eq_refl ltac:(lia)).
Defined.

Lemma open_success_installs_session_run :
  exists s' w',
    open_f (fresh (Some "http://radio.example/live") 0) idle = Some ((STREAM_OK, s'), w') /\
    priv s' = Some 1%nat /\
    s_fill_buffer s' = Some Fn_fill_buffer /\
    s_write_buffer s' = Some Fn_write_buffer /\
    s_control s' = Some Fn_control /\
    s_close s' = Some Fn_close_f /\
    streaming s' = true.
Proof.
  destruct (open_success_installs_session
              (fresh (Some "http://radio.example/live") 0) idle
              "http://radio.example/live" 0 1%nat [] (lib on_air))
    as (s' & w' & E & P & F1 & F2 & F3 & F4 & St & _);
    [reflexivity | reflexivity | vm_compute; reflexivity | lia |].
  exists s', w'. repeat split; assumption.
Defined.






Lemma open_mms_url_is_opened_as_mmsh_run :
  calls (snd mms_result) =
  (calls idle ++ [Call_avio_open2 ("mmsh://" ++ "radio.example/live")
                    (open_flags (fresh (Some "lavf://mms://radio.example/live") 0))
                    (lavf_options (opts (fresh (Some "lavf://mms://radio.example/live") 0)))])%list.
Proof.
  apply (open_mms_url_is_opened_as_mmsh "lavf://" "mms://" "radio.example/live"
           (fresh (Some "lavf://mms://radio.example/live") 0) idle
           (fst (fst mms_result)) (snd (fst mms_result)) (snd mms_result)).
  - simpl. auto.
  - simpl. auto.
  - reflexivity.
  - vm_compute. reflexivity.
Defined.

Lemma read_icy_marks_exactly_what_it_delivers_run :
  exists r w',
    read_icy radio on_air = Some (r, w') /\
    (r = None <->
       ctx_av_class 1%nat (lib on_air) = false \/
       (CStr.null_or_empty (icy_field 1%nat "icy_metadata_headers" (lib on_air)) = true /\
        CStr.null_or_empty (icy_field 1%nat "icy_metadata_packet" (lib on_air)) = true) \/
       icy_field 1%nat "icy_metadata_packet" (lib on_air) = Some "-") /\
    (r = None -> w' = on_air) /\
    (r <> None -> w' = after_mark 1%nat on_air).
Proof.
  apply (read_icy_marks_exactly_what_it_delivers radio 1%nat on_air).
  reflexivity.
Defined.


Lemma header_loop_reads_key_value_line_run :
  icy_header_lines
    (String.length ("StationName" ++ ": " ++ "Test" ++ CStr.CRLF ++ "Genre: Jazz" ++ CStr.CRLF))
    ("StationName" ++ ": " ++ "Test" ++ CStr.CRLF ++ "Genre: Jazz" ++ CStr.CRLF) [] =
  icy_header_lines (String.length ("Genre: Jazz" ++ CStr.CRLF))
    ("Genre: Jazz" ++ CStr.CRLF) (Tags.mp_tags_set_bstr [] "StationName" "Test").
Proof.
  apply (header_loop_reads_key_value_line "StationName" "Test"
           ("Genre: Jazz" ++ CStr.CRLF) []).
  - vm_compute. reflexivity.
  - vm_compute. reflexivity.
  - vm_compute. reflexivity.
Defined.

(** The radio, before any packet has come in. *)
Lemma read_icy_delivers_header_on_start_run :
  read_icy radio
    {| lib := {| l_seekable := 0; l_write_flag := 0;
                 l_headers := Some ("StationName: Test" ++ CStr.CRLF);
                 l_packet := None |};
       calls := []; msgs := [] |}
  = Some (Some [("StationName", "Test")],
          after_mark 1%nat
            {| lib := {| l_seekable := 0; l_write_flag := 0;
                         l_headers := Some ("StationName: Test" ++ CStr.CRLF);
                         l_packet := None |};
               calls := []; msgs := [] |}).
Proof.
  apply (read_icy_delivers_header_on_start radio 1%nat _ "StationName" "Test").
  - reflexivity.
  - reflexivity.
  - reflexivity.
  - reflexivity.
  - vm_compute. reflexivity.
  - vm_compute. reflexivity.
  - vm_compute. reflexivity.
Defined.

Lemma fill_buffer_returns_minus_one_or_positive_run :
  exists r data w',
    fill_buffer radio 2048 on_air = Some ((r, data), w') /\
    (r = -1 \/ 0 < r) /\
    forall a, priv radio = Some a ->
      (0 < r <-> 0 < fst (fst (avio_read a 2048 (lib on_air)))) /\
      (0 < r -> r = fst (fst (avio_read a 2048 (lib on_air)))) /\
      data = snd (fst (avio_read a 2048 (lib on_air))) /\
      calls w' = (calls on_air ++ [Call_avio_read a 2048])%list.
Proof.
  apply (fill_buffer_returns_minus_one_or_positive radio 2048 on_air).
Defined.

Lemma advertised_protocols_cover_open_f_run :
  exists scheme,
    In scheme (protocols stream_info_ffmpeg) /\ "ffmpeg://" = scheme ++ "://".
Proof.
  apply (proj1 advertised_protocols_cover_open_f "ffmpeg://").
  simpl. auto.
Defined.

End Runs.
